(** Mailroom, package [core/models]: flow runs and sessions.

    A shallow embedding of [runs.go] (run records, [newRun],
    [RunExpiration], [ExpireRunsAndSessions] and the SQL statements they
    execute), together with the session operations of [sessions.go]
    (interruption and [Session.Update]).

    Conventions:
    - a Go [string] type is [string]; [null.String] is a [string] whose
      empty value is written to the database as NULL;
    - a Go pointer that may be [nil] ([*time.Time], [*flows.RunUUID]) is an
      [option];
    - a Go [map] literal is a [gmap]; indexing it yields the zero value of
      the element type when the key is absent;
    - a database table is a finite map from its primary key [id] to its row;
    - an [error] result is [option error] ([None] is Go's [nil]), a
      [(T, error)] result is [error + T]. *)

From Stdlib Require Import ZArith.
From stdpp Require Import base option list strings gmap fin_maps.

Local Open Scope string_scope.

(** * Go values shared by the packages *)

(** [time.Time], as an instant on the time line. *)
Definition Time := Z.

(** Go [error] values: the sentinel [sql.ErrNoRows], a fresh error and
    [errors.Wrapf]. *)
Inductive error : Type :=
| sql_ErrNoRows
| errors_New (msg : string)
| errors_Wrapf (cause : error) (msg : string).

#[global] Instance error_eq_dec : EqDecision error.
Proof. solve_decision. Defined.

(** [m[k]] on a Go map whose elements are strings: the zero value [""] when
    [k] is absent. *)
Definition go_index (m : gmap string string) (k : string) : string :=
  default "" (m !! k).

(** * The flow engine (package [flows] of goflow), as far as runs.go uses it *)
Module flows.

Definition RunUUID := string.
Definition StepUUID := string.
Definition NodeUUID := string.
Definition ExitUUID := string.
Definition FlowUUID := string.
Abbreviation ContactID := Z.

(** [flows.RunStatus] is a string type; these are the engine's tokens (they
    are declared in goflow, which runs.go imports). Nothing below depends
    on the tokens beyond their being the keys of [runStatusMap]. *)
Definition RunStatus := string.
Definition RunStatusActive : RunStatus := "active".
Definition RunStatusWaiting : RunStatus := "waiting".
Definition RunStatusCompleted : RunStatus := "completed".
Definition RunStatusExpired : RunStatus := "expired".
Definition RunStatusFailed : RunStatus := "failed".

(** One step of an engine run's path: [flows.Step]. *)
Module Step.
Record t : Type := mk {
  UUID : StepUUID;
  NodeUUID : flows.NodeUUID;
  ArrivedOn : Time;
  ExitUUID : flows.ExitUUID
}.
End Step.

(** An engine event: [flows.Event]. *)
Module Event.
Record t : Type := mk {
  Type_ : string;
  CreatedOn : Time
}.
End Event.

(** The result map of a run, key to serialized result. *)
Abbreviation Results := (gmap string string).

(** [flows.Run]: the accessors newRun calls. [Parent] is [nil] for a run
    that was not started by another run, and the parent's summary, of which
    only the UUID is read, otherwise. *)
Module Run.
Record t : Type := mk {
  UUID : RunUUID;
  Status : RunStatus;
  CreatedOn : Time;
  ExitedOn : option Time;
  ExpiresOn : option Time;
  ModifiedOn : Time;
  ContactID : flows.ContactID;
  FlowReferenceUUID : FlowUUID;
  Path : list Step.t;
  Results : flows.Results;
  Events : list Event.t;
  Parent : option RunUUID
}.
End Run.

(** Modelled from the spec: the engine session and sprint that sessions.go
    (not under src/) consumes, spec sections 1 and 3: "given assets +
    trigger/resume, yields a new session snapshot plus an ordered event
    list"; "a session returned from a sprint is either Waiting (paused at a
    wait node) or terminal", and creation or a sprint leads to Waiting,
    Completed or Failed (spec section 4.F). *)
Inductive SessionStatus : Type :=
| SessionStatusWaiting
| SessionStatusCompleted
| SessionStatusFailed.

(** Modelled from the spec: the wait of a waiting engine session, the
    "wait fields" of spec section 3: started-on, expires-on and timeout. *)
Module Wait.
Record t : Type := mk {
  StartedOn : Time;
  ExpiresOn : option Time;
  Timeout : option Time
}.
End Wait.

(** Modelled from the spec: the engine session after a sprint: its status,
    its runs (frames, parents before children), its wait when it is
    waiting, and its serialized state. *)
Module Session.
Record t : Type := mk {
  Status : SessionStatus;
  Runs : list Run.t;
  Wait : option Wait.t;
  Output : string
}.
End Session.

(** Modelled from the spec: a sprint, "the sequence of events produced by
    one engine invocation" (glossary). *)
Module Sprint.
Record t : Type := mk {
  Events : list Event.t
}.
End Sprint.

End flows.

(** Package [events] of goflow: the type of an inbound message event. *)
Module events.
Definition TypeMsgReceived : string := "msg_received".
End events.

(** * Package models *)

Abbreviation FlowRunID := Z.
Definition NilFlowRunID : FlowRunID := 0%Z.
Abbreviation SessionID := Z.
Abbreviation FlowID := Z.
Definition NilFlowID : FlowID := 0%Z.
Abbreviation OrgID := Z.
Abbreviation StartID := Z.
Definition NilStartID : StartID := 0%Z.
Abbreviation ConnectionID := Z.
Abbreviation ContactID := Z.
Abbreviation ChannelID := Z.

(** ** Run status vocabulary *)

Definition RunStatus := string.
Definition RunStatusActive : RunStatus := "A".
Definition RunStatusWaiting : RunStatus := "W".
Definition RunStatusCompleted : RunStatus := "C".
Definition RunStatusExpired : RunStatus := "X".
Definition RunStatusInterrupted : RunStatus := "I".
Definition RunStatusFailed : RunStatus := "F".

Definition runStatusMap : gmap flows.RunStatus RunStatus :=
  {[ flows.RunStatusActive := RunStatusActive;
     flows.RunStatusWaiting := RunStatusWaiting;
     flows.RunStatusCompleted := RunStatusCompleted;
     flows.RunStatusExpired := RunStatusExpired;
     flows.RunStatusFailed := RunStatusFailed ]}.

(** [ExitType] is [null.String]. *)
Definition ExitType := string.
Definition ExitInterrupted : ExitType := "I".
Definition ExitCompleted : ExitType := "C".
Definition ExitExpired : ExitType := "E".
Definition ExitFailed : ExitType := "F".

Definition runStatusToExitType : gmap RunStatus ExitType :=
  {[ RunStatusInterrupted := ExitInterrupted;
     RunStatusCompleted := ExitCompleted;
     RunStatusExpired := ExitExpired;
     RunStatusFailed := ExitFailed ]}.

(** ** Steps and run records *)

(** [Step], the serialized form of a path element. *)
Module Step.
Record t : Type := mk {
  UUID : flows.StepUUID;
  NodeUUID : flows.NodeUUID;
  ArrivedOn : Time;
  ExitUUID : flows.ExitUUID
}.
End Step.

(** The inner struct [r] of [FlowRun], one field per column of
    [flows_flowrun]. [Path] and [Results] hold the values that the source
    marshals to JSON text for their columns. *)
Module FlowRun.
Record r_t : Type := mk_r {
  ID : FlowRunID;
  UUID : flows.RunUUID;
  Status : RunStatus;
  CreatedOn : Time;
  ModifiedOn : Time;
  ExitedOn : option Time;
  ExpiresOn : option Time;
  Responded : bool;
  Results : flows.Results;
  Path : list Step.t;
  CurrentNodeUUID : string;
  ContactID : flows.ContactID;
  FlowID : FlowID;
  OrgID : OrgID;
  ParentUUID : option flows.RunUUID;
  SessionID : SessionID;
  StartID : StartID;
  ConnectionID : option ConnectionID;
  (* deprecated *)
  IsActive : bool;
  ExitType : ExitType
}.

(** [FlowRun]: the record and a reference to the engine's run. *)
Record t : Type := mk {
  r : r_t;
  run : option flows.Run.t
}.
End FlowRun.

(** ** Sessions and organization assets, as far as runs.go uses them *)

(** Modelled from the spec: the session status and flow type vocabularies
    of sessions.go and flows.go (not under src/), spec sections 3 and 6:
    status is one of W, C, X, I, F and session type one of M, V, B. *)
Definition SessionStatus := string.
Definition SessionStatusWaiting : SessionStatus := "W".
Definition SessionStatusCompleted : SessionStatus := "C".
Definition SessionStatusExpired : SessionStatus := "X".
Definition SessionStatusInterrupted : SessionStatus := "I".
Definition SessionStatusFailed : SessionStatus := "F".

Definition FlowType := string.
Definition FlowTypeMessaging : FlowType := "M".
Definition FlowTypeVoice : FlowType := "V".
Definition FlowTypeBackground : FlowType := "B".

(** Modelled from the spec: the session record of sessions.go (not under
    src/), one field per attribute of spec section 3, which are the columns
    of [flows_flowsession] in spec section 6. *)
Module Session.
Record t : Type := mk {
  ID : SessionID;
  UUID : string;
  SessionType : FlowType;
  Status : SessionStatus;
  ContactID : ContactID;
  CurrentFlowID : option FlowID;
  ConnectionID : option ConnectionID;
  Responded : bool;
  Output : string;
  CreatedOn : Time;
  EndedOn : option Time;
  WaitStartedOn : option Time;
  WaitExpiresOn : option Time;
  WaitResumeOnExpire : bool;
  Timeout : option Time;
  OrgID : OrgID
}.
End Session.

(** Modelled from the spec: the organization assets of assets.go (not under
    src/), reduced to what newRun reads: the organization id and the flows
    by UUID ("resolves the flow-id from the engine-run's flow-reference UUID
    via assets", spec section 4.C). *)
Module OrgAssets.
Record t : Type := mk {
  OrgID : OrgID;
  Flows : gmap flows.FlowUUID FlowID
}.
End OrgAssets.

(** Modelled from the spec: [FlowIDForUUID] of flows.go (not under src/);
    an unknown flow UUID is an error (spec section 7). *)
Definition FlowIDForUUID (oa : OrgAssets.t) (flowUUID : flows.FlowUUID) : error + FlowID :=
  match OrgAssets.Flows oa !! flowUUID with
  | Some flowID => inr flowID
  | None => inl (errors_New "no such flow")
  end.

(** ** newRun *)

(** The scan of the run's events, which stops at the first inbound
    message. *)
Fixpoint msgReceived (evts : list flows.Event.t) : bool :=
  match evts with
  | [] => false
  | e :: rest =>
      if bool_decide (flows.Event.Type_ e = events.TypeMsgReceived) then true
      else msgReceived rest
  end.

(** [newRun(ctx, tx, oa, session, fr)]: builds the run record of an engine
    run. Each [let] is one group of assignments of the source, in its
    order. *)
Definition newRun (oa : OrgAssets.t) (session : Session.t) (fr : flows.Run.t) : error + FlowRun.t :=
  (* build our path elements *)
  let path :=
    (fun p => Step.mk (flows.Step.UUID p) (flows.Step.NodeUUID p)
                      (flows.Step.ArrivedOn p) (flows.Step.ExitUUID p))
      <$> flows.Run.Path fr in
  match FlowIDForUUID oa (flows.Run.FlowReferenceUUID fr) with
  | inl err => inl (errors_Wrapf err "unable to load flow with uuid")
  | inr flowID =>
      let status := go_index runStatusMap (flows.Run.Status fr) in
      let currentNodeUUID :=
        if bool_decide (0 < length path)%nat
        then from_option Step.NodeUUID "" (path !! (length path - 1)%nat)
        else "" in
      let '(exitType, isActive) :=
        if bool_decide (flows.Run.Status fr ≠ flows.RunStatusActive)
           && bool_decide (flows.Run.Status fr ≠ flows.RunStatusWaiting)
        then (go_index runStatusToExitType status, false)
        else ("", true) in
      (* mark ourselves as responded if we received a message *)
      let responded := msgReceived (flows.Run.Events fr) in
      (* set our parent UUID if we have a parent *)
      let parentUUID :=
        match flows.Run.Parent fr with
        | Some uuid => Some uuid
        | None => None
        end in
      inr {| FlowRun.r := {|
               FlowRun.ID := NilFlowRunID;
               FlowRun.UUID := flows.Run.UUID fr;
               FlowRun.Status := status;
               FlowRun.CreatedOn := flows.Run.CreatedOn fr;
               FlowRun.ModifiedOn := flows.Run.ModifiedOn fr;
               FlowRun.ExitedOn := flows.Run.ExitedOn fr;
               FlowRun.ExpiresOn := flows.Run.ExpiresOn fr;
               FlowRun.Responded := responded;
               FlowRun.Results := flows.Run.Results fr;
               FlowRun.Path := path;
               FlowRun.CurrentNodeUUID := currentNodeUUID;
               FlowRun.ContactID := flows.Run.ContactID fr;
               FlowRun.FlowID := flowID;
               FlowRun.OrgID := OrgAssets.OrgID oa;
               FlowRun.ParentUUID := parentUUID;
               FlowRun.SessionID := Session.ID session;
               FlowRun.StartID := NilStartID;
               FlowRun.ConnectionID := None;
               FlowRun.IsActive := isActive;
               FlowRun.ExitType := exitType |};
             FlowRun.run := Some fr |}
  end.

(** ** The database and its driver *)

(** The tables the package reads and writes here, each keyed by its [id]
    column: [flows_flowrun], whose columns are the fields of [FlowRun.r],
    and, modelled from the spec (sections 4.G and 6), [flows_flowsession]
    and the table of connections, reduced to the channel of each
    connection. *)
Record DB : Type := mkDB {
  flows_flowsession : gmap SessionID Session.t;
  flows_flowrun : gmap FlowRunID FlowRun.r_t;
  channels_channelconnection : gmap ConnectionID ChannelID
}.

(** What the driver answers, apart from the data: the error, if any, of
    beginning a transaction, of executing the statement with a given
    label, of committing, and of running a query. *)
Record Driver : Type := mkDriver {
  begin_err : option error;
  exec_err : string -> option error;
  commit_err : option error;
  query_err : option error
}.

(** [db.BeginTxx]: the transaction works on a snapshot of the database. *)
Definition BeginTxx (drv : Driver) (db : DB) : error + DB :=
  match begin_err drv with
  | Some err => inl err
  | None => inr db
  end.

(** [Exec(ctx, label, tx, sql, args)], the package's helper for statements
    (declared in its utilities, not under src/): runs one statement in the
    transaction and returns the driver's error. *)
Definition Exec (drv : Driver) (label : string) (tx : DB) (stmt : DB -> DB) : error + DB :=
  match exec_err drv label with
  | Some err => inl err
  | None => inr (stmt tx)
  end.

(** [tx.Commit]: the transaction's state becomes the database's, or
    nothing does. *)
Definition Commit (drv : Driver) (db tx : DB) : error + DB :=
  match commit_err drv with
  | Some err => inl err
  | None => inr tx
  end.

(** [tx.Rollback]: the database is as it was. *)
Definition Rollback (db tx : DB) : DB := db.

(** [UPDATE t SET ... WHERE cond]: every row satisfying [cond] is replaced
    by its update, the others stay. *)
Definition sql_update {Row : Type} (cond : Z -> Row -> bool) (set : Row -> Row)
    (table : gmap Z Row) : gmap Z Row :=
  map_imap (fun id row => Some (if cond id row then set row else row)) table.

(** [x = ANY(array)]. *)
Definition sql_any (x : Z) (array : list Z) : bool := bool_decide (x ∈ array).

(** ** RunExpiration *)

(** [db.Get(&expiration, `SELECT expires_on FROM flows_flowrun WHERE id = $1
    AND status = 'W'`, runID)] into a [time.Time]: no row is
    [sql.ErrNoRows], and a NULL [expires_on] cannot be scanned. *)
Definition selectRunExpiration (drv : Driver) (db : DB) (runID : FlowRunID) : error + Time :=
  match query_err drv with
  | Some err => inl err
  | None =>
      match flows_flowrun db !! runID with
      | Some row =>
          if bool_decide (FlowRun.Status row = "W") then
            match FlowRun.ExpiresOn row with
            | Some expiration => inr expiration
            | None => inl (errors_New "unsupported Scan, storing driver.Value type <nil> into type *time.Time")
            end
          else inl sql_ErrNoRows
      | None => inl sql_ErrNoRows
      end
  end.

(** [RunExpiration] looks up the run expiration for the passed in run, can
    return nil if the run is no longer waiting. *)
Definition RunExpiration (drv : Driver) (db : DB) (runID : FlowRunID) : error + option Time :=
  match selectRunExpiration drv db runID with
  | inl err =>
      if bool_decide (err = sql_ErrNoRows) then inr None
      else inl (errors_Wrapf err "unable to select expiration for run")
  | inr expiration => inr (Some expiration)
  end.

(** ** ExpireRunsAndSessions *)

(** The SET clause of [expireSessionsSQL]. *)
Definition expireSession (now : Time) (s : Session.t) : Session.t :=
  {| Session.ID := Session.ID s;
     Session.UUID := Session.UUID s;
     Session.SessionType := Session.SessionType s;
     Session.Status := "X";
     Session.ContactID := Session.ContactID s;
     Session.CurrentFlowID := None;
     Session.ConnectionID := Session.ConnectionID s;
     Session.Responded := Session.Responded s;
     Session.Output := Session.Output s;
     Session.CreatedOn := Session.CreatedOn s;
     Session.EndedOn := Some now;
     Session.WaitStartedOn := None;
     Session.WaitExpiresOn := None;
     Session.WaitResumeOnExpire := Session.WaitResumeOnExpire s;
     Session.Timeout := None;
     Session.OrgID := Session.OrgID s |}.

Definition expireSessionsSQL (sessionIDs : list SessionID) (now : Time) (tx : DB) : DB :=
  {| flows_flowsession :=
       sql_update (fun id _ => sql_any id sessionIDs) (expireSession now) (flows_flowsession tx);
     flows_flowrun := flows_flowrun tx;
     channels_channelconnection := channels_channelconnection tx |}.

(** The SET clause of [expireRunsSQL]. *)
Definition expireRun (now : Time) (fr : FlowRun.r_t) : FlowRun.r_t :=
  {| FlowRun.ID := FlowRun.ID fr;
     FlowRun.UUID := FlowRun.UUID fr;
     FlowRun.Status := "E";
     FlowRun.CreatedOn := FlowRun.CreatedOn fr;
     FlowRun.ModifiedOn := now;
     FlowRun.ExitedOn := Some now;
     FlowRun.ExpiresOn := FlowRun.ExpiresOn fr;
     FlowRun.Responded := FlowRun.Responded fr;
     FlowRun.Results := FlowRun.Results fr;
     FlowRun.Path := FlowRun.Path fr;
     FlowRun.CurrentNodeUUID := FlowRun.CurrentNodeUUID fr;
     FlowRun.ContactID := FlowRun.ContactID fr;
     FlowRun.FlowID := FlowRun.FlowID fr;
     FlowRun.OrgID := FlowRun.OrgID fr;
     FlowRun.ParentUUID := FlowRun.ParentUUID fr;
     FlowRun.SessionID := FlowRun.SessionID fr;
     FlowRun.StartID := FlowRun.StartID fr;
     FlowRun.ConnectionID := FlowRun.ConnectionID fr;
     FlowRun.IsActive := false;
     FlowRun.ExitType := "E" |}.

Definition expireRunsSQL (runIDs : list FlowRunID) (now : Time) (tx : DB) : DB :=
  {| flows_flowsession := flows_flowsession tx;
     flows_flowrun :=
       sql_update (fun id _ => sql_any id runIDs) (expireRun now) (flows_flowrun tx);
     channels_channelconnection := channels_channelconnection tx |}.

(** [ExpireRunsAndSessions] expires all the passed in runs and sessions.
    [now] is the value of [NOW()] in the transaction; the result is the
    database after the call and the error returned. *)
Definition ExpireRunsAndSessions (drv : Driver) (now : Time) (db : DB)
    (runIDs : list FlowRunID) (sessionIDs : list SessionID) : DB * option error :=
  if bool_decide (length runIDs = 0%nat) then (db, None)
  else
    match BeginTxx drv db with
    | inl err => (db, Some (errors_Wrapf err "error starting transaction to expire sessions"))
    | inr tx =>
        match Exec drv "expiring runs" tx (expireRunsSQL runIDs now) with
        | inl err => (Rollback db tx, Some (errors_Wrapf err "error expiring runs"))
        | inr tx =>
            match
              (if bool_decide (0 < length sessionIDs)%nat
               then Exec drv "expiring sessions" tx (expireSessionsSQL sessionIDs now)
               else inr tx)
            with
            | inl err => (Rollback db tx, Some (errors_Wrapf err "error expiring sessions"))
            | inr tx =>
                match Commit drv db tx with
                | inl err => (db, Some (errors_Wrapf err "error committing expiration of runs and sessions"))
                | inr db' => (db', None)
                end
            end
        end
    end.

(** ** Interruption operations *)

(** Modelled from the spec: the interruption operations of sessions.go (not
    under src/; its tests are), spec section 4.G: "the matching session
    rows are updated in a single statement with status=Interrupted,
    ended-on=now, wait-started-on=NULL, wait-expires-on=NULL,
    timeout-on=NULL, current-flow-id=NULL". *)
Definition interruptSession (now : Time) (s : Session.t) : Session.t :=
  {| Session.ID := Session.ID s;
     Session.UUID := Session.UUID s;
     Session.SessionType := Session.SessionType s;
     Session.Status := SessionStatusInterrupted;
     Session.ContactID := Session.ContactID s;
     Session.CurrentFlowID := None;
     Session.ConnectionID := Session.ConnectionID s;
     Session.Responded := Session.Responded s;
     Session.Output := Session.Output s;
     Session.CreatedOn := Session.CreatedOn s;
     Session.EndedOn := Some now;
     Session.WaitStartedOn := None;
     Session.WaitExpiresOn := None;
     Session.WaitResumeOnExpire := Session.WaitResumeOnExpire s;
     Session.Timeout := None;
     Session.OrgID := Session.OrgID s |}.

(** Modelled from the spec: the run update of an interruption, spec section
    4.G: runs "are updated with status=Interrupted, exited-on=now,
    is-active=false, exit-type=I". *)
Definition interruptRun (now : Time) (fr : FlowRun.r_t) : FlowRun.r_t :=
  {| FlowRun.ID := FlowRun.ID fr;
     FlowRun.UUID := FlowRun.UUID fr;
     FlowRun.Status := RunStatusInterrupted;
     FlowRun.CreatedOn := FlowRun.CreatedOn fr;
     FlowRun.ModifiedOn := FlowRun.ModifiedOn fr;
     FlowRun.ExitedOn := Some now;
     FlowRun.ExpiresOn := FlowRun.ExpiresOn fr;
     FlowRun.Responded := FlowRun.Responded fr;
     FlowRun.Results := FlowRun.Results fr;
     FlowRun.Path := FlowRun.Path fr;
     FlowRun.CurrentNodeUUID := FlowRun.CurrentNodeUUID fr;
     FlowRun.ContactID := FlowRun.ContactID fr;
     FlowRun.FlowID := FlowRun.FlowID fr;
     FlowRun.OrgID := FlowRun.OrgID fr;
     FlowRun.ParentUUID := FlowRun.ParentUUID fr;
     FlowRun.SessionID := FlowRun.SessionID fr;
     FlowRun.StartID := FlowRun.StartID fr;
     FlowRun.ConnectionID := FlowRun.ConnectionID fr;
     FlowRun.IsActive := false;
     FlowRun.ExitType := ExitInterrupted |}.

(** Modelled from the spec: the matched set of an interruption, spec
    section 4.G: the sessions the selector matches, of which "only sessions
    with status=Waiting may be interrupted". *)
Definition matchedSession (selector : Session.t -> bool) (s : Session.t) : bool :=
  bool_decide (Session.Status s = SessionStatusWaiting) && selector s.

(** Modelled from the spec: membership of a session id in the matched set
    ("runs are found by session-id via subquery/CTE", spec section 4.G). *)
Definition inMatchedSet (selector : Session.t -> bool)
    (sessions : gmap SessionID Session.t) (id : SessionID) : bool :=
  from_option (matchedSession selector) false (sessions !! id).

(** Modelled from the spec: the first statement of an interruption. *)
Definition interruptSessionsSQL (selector : Session.t -> bool) (now : Time) (tx : DB) : DB :=
  {| flows_flowsession :=
       sql_update (fun _ s => matchedSession selector s) (interruptSession now)
                  (flows_flowsession tx);
     flows_flowrun := flows_flowrun tx;
     channels_channelconnection := channels_channelconnection tx |}.

(** Modelled from the spec: the second statement of an interruption: "all
    runs whose session-id is in the matched set and whose status is in
    {Active, Waiting}". *)
Definition interruptRunsSQL (matched : SessionID -> bool) (now : Time) (tx : DB) : DB :=
  {| flows_flowsession := flows_flowsession tx;
     flows_flowrun :=
       sql_update
         (fun _ fr => matched (FlowRun.SessionID fr)
                      && (bool_decide (FlowRun.Status fr = RunStatusActive)
                          || bool_decide (FlowRun.Status fr = RunStatusWaiting)))
         (interruptRun now) (flows_flowrun tx);
     channels_channelconnection := channels_channelconnection tx |}.

(** Modelled from the spec: an interruption over a selector, spec sections
    4.G and 5: the session update precedes the run update, the runs are
    found through the matched set, and the call is atomic (on an error
    nothing is changed). *)
Definition interruptSessions (drv : Driver) (now : Time) (db : DB)
    (selector : Session.t -> bool) : DB * option error :=
  let matched := inMatchedSet selector (flows_flowsession db) in
  match Exec drv "interrupting sessions" db (interruptSessionsSQL selector now) with
  | inl err => (db, Some (errors_Wrapf err "error interrupting sessions"))
  | inr tx =>
      match Exec drv "interrupting runs" tx (interruptRunsSQL matched now) with
      | inl err => (db, Some (errors_Wrapf err "error interrupting runs"))
      | inr tx => (tx, None)
      end
  end.

(** Modelled from the spec: the selector by contact ids, spec section
    4.G. *)
Definition forContacts (contactIDs : list ContactID) (s : Session.t) : bool :=
  sql_any (Session.ContactID s) contactIDs.

(** Modelled from the spec: the selector by contact ids and flow type,
    spec section 4.G. *)
Definition ofTypeForContacts (contactIDs : list ContactID) (sessionType : FlowType)
    (s : Session.t) : bool :=
  sql_any (Session.ContactID s) contactIDs
  && bool_decide (Session.SessionType s = sessionType).

(** Modelled from the spec: the selector by channel ids, spec section 4.G:
    sessions "whose connection-id references a connection on any of the
    listed channels". *)
Definition forChannels (connections : gmap ConnectionID ChannelID)
    (channelIDs : list ChannelID) (s : Session.t) : bool :=
  match Session.ConnectionID s with
  | Some connID =>
      match connections !! connID with
      | Some channelID => sql_any channelID channelIDs
      | None => false
      end
  | None => false
  end.

(** Modelled from the spec: the selector by flow ids, spec section 4.G:
    sessions "whose current-flow-id is in the set". *)
Definition forFlows (flowIDs : list FlowID) (s : Session.t) : bool :=
  match Session.CurrentFlowID s with
  | Some flowID => sql_any flowID flowIDs
  | None => false
  end.

(** Modelled from the spec: [InterruptSessionsForContacts] of sessions.go:
    "interrupt all Waiting sessions for the contacts across all flow
    types"; a no-op on empty input. *)
Definition InterruptSessionsForContacts (drv : Driver) (now : Time) (db : DB)
    (contactIDs : list ContactID) : DB * option error :=
  if bool_decide (length contactIDs = 0%nat) then (db, None)
  else interruptSessions drv now db (forContacts contactIDs).

(** Modelled from the spec: [InterruptSessionsOfTypeForContacts] of
    sessions.go: "interrupt Waiting sessions only of the given type"; a
    no-op on empty input. *)
Definition InterruptSessionsOfTypeForContacts (drv : Driver) (now : Time) (db : DB)
    (contactIDs : list ContactID) (sessionType : FlowType) : DB * option error :=
  if bool_decide (length contactIDs = 0%nat) then (db, None)
  else interruptSessions drv now db (ofTypeForContacts contactIDs sessionType).

(** Modelled from the spec: [InterruptSessionsForChannels] of sessions.go:
    "interrupt Waiting sessions whose connection-id references a connection
    on any of the listed channels"; a no-op on empty input. *)
Definition InterruptSessionsForChannels (drv : Driver) (now : Time) (db : DB)
    (channelIDs : list ChannelID) : DB * option error :=
  if bool_decide (length channelIDs = 0%nat) then (db, None)
  else interruptSessions drv now db
         (forChannels (channels_channelconnection db) channelIDs).

(** Modelled from the spec: [InterruptSessionsForFlows] of sessions.go:
    "interrupt Waiting sessions whose current-flow-id is in the set"; a
    no-op on empty input. *)
Definition InterruptSessionsForFlows (drv : Driver) (now : Time) (db : DB)
    (flowIDs : list FlowID) : DB * option error :=
  if bool_decide (length flowIDs = 0%nat) then (db, None)
  else interruptSessions drv now db (forFlows flowIDs).

(** ** Session.Update *)

(** Modelled from the spec: the terminal session statuses, spec section 3:
    Completed, Expired, Interrupted, Failed. *)
Definition terminalSessionStatus (status : SessionStatus) : bool :=
  bool_decide (status ∈ [SessionStatusCompleted; SessionStatusExpired;
                         SessionStatusInterrupted; SessionStatusFailed]).

(** Modelled from the spec: the persisted status of an engine session
    status. *)
Definition sessionStatusMap (status : flows.SessionStatus) : SessionStatus :=
  match status with
  | flows.SessionStatusWaiting => SessionStatusWaiting
  | flows.SessionStatusCompleted => SessionStatusCompleted
  | flows.SessionStatusFailed => SessionStatusFailed
  end.

(** Modelled from the spec: the current run of a waiting engine session,
    the innermost frame that waits (spec sections 3 and 8: the parent and
    the child of a sub-flow both wait, the session is in the child). *)
Definition waitingRun (fs : flows.Session.t) : option flows.Run.t :=
  last (filter (fun fr => flows.Run.Status fr = flows.RunStatusWaiting) (flows.Session.Runs fs)).

(** Modelled from the spec: step 1 of [Session.Update] in sessions.go (not
    under src/), spec section 4.F: "recompute the Session's status,
    current-flow-id, wait fields, timeout, wait-resume-on-expire, ended-on,
    and output from the engine-session's post-sprint state", under the
    invariants of spec section 3 (a waiting session has a current flow and
    no ended-on; a terminal one has ended-on and none of the wait fields;
    wait-resume-on-expire holds iff the current run has a parent). The
    responded flag is not among the recomputed fields. *)
Definition recomputeSession (oa : OrgAssets.t) (now : Time) (session : Session.t)
    (fs : flows.Session.t) : error + Session.t :=
  match flows.Session.Status fs with
  | flows.SessionStatusWaiting =>
      match waitingRun fs, flows.Session.Wait fs with
      | Some fr, Some wait =>
          match FlowIDForUUID oa (flows.Run.FlowReferenceUUID fr) with
          | inl err => inl (errors_Wrapf err "unable to load flow of waiting run")
          | inr flowID =>
              inr {| Session.ID := Session.ID session;
                     Session.UUID := Session.UUID session;
                     Session.SessionType := Session.SessionType session;
                     Session.Status := SessionStatusWaiting;
                     Session.ContactID := Session.ContactID session;
                     Session.CurrentFlowID := Some flowID;
                     Session.ConnectionID := Session.ConnectionID session;
                     Session.Responded := Session.Responded session;
                     Session.Output := flows.Session.Output fs;
                     Session.CreatedOn := Session.CreatedOn session;
                     Session.EndedOn := None;
                     Session.WaitStartedOn := Some (flows.Wait.StartedOn wait);
                     Session.WaitExpiresOn := flows.Wait.ExpiresOn wait;
                     Session.WaitResumeOnExpire := bool_decide (is_Some (flows.Run.Parent fr));
                     Session.Timeout := flows.Wait.Timeout wait;
                     Session.OrgID := Session.OrgID session |}
          end
      | _, _ => inl (errors_New "waiting session has no waiting run")
      end
  | status =>
      inr {| Session.ID := Session.ID session;
             Session.UUID := Session.UUID session;
             Session.SessionType := Session.SessionType session;
             Session.Status := sessionStatusMap status;
             Session.ContactID := Session.ContactID session;
             Session.CurrentFlowID := None;
             Session.ConnectionID := Session.ConnectionID session;
             Session.Responded := Session.Responded session;
             Session.Output := flows.Session.Output fs;
             Session.CreatedOn := Session.CreatedOn session;
             Session.EndedOn := Some now;
             Session.WaitStartedOn := None;
             Session.WaitExpiresOn := None;
             Session.WaitResumeOnExpire := false;
             Session.Timeout := None;
             Session.OrgID := Session.OrgID session |}
  end.

(** Modelled from the spec: the update of an already persisted run, spec
    section 4.F step 2(b): "new status, path, results, current-node-uuid,
    modified-on=now, and, if terminal, exited-on and exit-type/is-active";
    and responded "becomes true the first time the run observes an
    inbound-message event" (spec section 3). [r] is the record newRun
    builds from the engine run. *)
Definition updateRun (now : Time) (r row : FlowRun.r_t) : FlowRun.r_t :=
  let terminal := negb (FlowRun.IsActive r) in
  {| FlowRun.ID := FlowRun.ID row;
     FlowRun.UUID := FlowRun.UUID row;
     FlowRun.Status := FlowRun.Status r;
     FlowRun.CreatedOn := FlowRun.CreatedOn row;
     FlowRun.ModifiedOn := now;
     FlowRun.ExitedOn := if terminal then FlowRun.ExitedOn r else FlowRun.ExitedOn row;
     FlowRun.ExpiresOn := FlowRun.ExpiresOn row;
     FlowRun.Responded := FlowRun.Responded row || FlowRun.Responded r;
     FlowRun.Results := FlowRun.Results r;
     FlowRun.Path := FlowRun.Path r;
     FlowRun.CurrentNodeUUID := FlowRun.CurrentNodeUUID r;
     FlowRun.ContactID := FlowRun.ContactID row;
     FlowRun.FlowID := FlowRun.FlowID row;
     FlowRun.OrgID := FlowRun.OrgID row;
     FlowRun.ParentUUID := FlowRun.ParentUUID row;
     FlowRun.SessionID := FlowRun.SessionID row;
     FlowRun.StartID := FlowRun.StartID row;
     FlowRun.ConnectionID := FlowRun.ConnectionID row;
     FlowRun.IsActive := if terminal then FlowRun.IsActive r else FlowRun.IsActive row;
     FlowRun.ExitType := if terminal then FlowRun.ExitType r else FlowRun.ExitType row |}.

(** Modelled from the spec: the row inserted for a new run: the record of
    newRun with the id the table assigns and the session's connection
    ("connection-id (nullable; mirrors session)", spec section 3). *)
Definition insertedRun (id : FlowRunID) (connID : option ConnectionID)
    (r : FlowRun.r_t) : FlowRun.r_t :=
  {| FlowRun.ID := id;
     FlowRun.UUID := FlowRun.UUID r;
     FlowRun.Status := FlowRun.Status r;
     FlowRun.CreatedOn := FlowRun.CreatedOn r;
     FlowRun.ModifiedOn := FlowRun.ModifiedOn r;
     FlowRun.ExitedOn := FlowRun.ExitedOn r;
     FlowRun.ExpiresOn := FlowRun.ExpiresOn r;
     FlowRun.Responded := FlowRun.Responded r;
     FlowRun.Results := FlowRun.Results r;
     FlowRun.Path := FlowRun.Path r;
     FlowRun.CurrentNodeUUID := FlowRun.CurrentNodeUUID r;
     FlowRun.ContactID := FlowRun.ContactID r;
     FlowRun.FlowID := FlowRun.FlowID r;
     FlowRun.OrgID := FlowRun.OrgID r;
     FlowRun.ParentUUID := FlowRun.ParentUUID r;
     FlowRun.SessionID := FlowRun.SessionID r;
     FlowRun.StartID := FlowRun.StartID r;
     FlowRun.ConnectionID := connID;
     FlowRun.IsActive := FlowRun.IsActive r;
     FlowRun.ExitType := FlowRun.ExitType r |}.

(** The next value of a [bigserial] primary key. *)
Definition nextID {Row : Type} (table : gmap Z Row) : Z :=
  (map_fold (fun id _ acc => Z.max id acc) 0 table + 1)%Z.

(** Modelled from the spec: step 2 of [Session.Update], for one engine run:
    a run with "no matching persisted run by uuid" is inserted, a persisted
    one is updated. *)
Definition writeRun (oa : OrgAssets.t) (now : Time) (session : Session.t)
    (tx : DB) (fr : flows.Run.t) : error + DB :=
  match newRun oa session fr with
  | inl err => inl err
  | inr run =>
      let r := FlowRun.r run in
      let persisted :=
        bool_decide (map_Exists (fun _ row => FlowRun.UUID row = FlowRun.UUID r)
                                (flows_flowrun tx)) in
      let runs :=
        if persisted
        then sql_update (fun _ row => bool_decide (FlowRun.UUID row = FlowRun.UUID r))
                        (updateRun now r) (flows_flowrun tx)
        else
          let id := nextID (flows_flowrun tx) in
          <[id := insertedRun id (Session.ConnectionID session) r]> (flows_flowrun tx) in
      inr {| flows_flowsession := flows_flowsession tx;
             flows_flowrun := runs;
             channels_channelconnection := channels_channelconnection tx |}
  end.

(** Modelled from the spec: step 2 of [Session.Update], over the runs of
    the engine session, stopping at the first error. *)
Fixpoint writeRuns (oa : OrgAssets.t) (now : Time) (session : Session.t)
    (tx : DB) (runs : list flows.Run.t) : error + DB :=
  match runs with
  | [] => inr tx
  | fr :: rest =>
      match writeRun oa now session tx fr with
      | inl err => inl err
      | inr tx => writeRuns oa now session tx rest
      end
  end.

(** Modelled from the spec: step 3 of [Session.Update]: "update the Session
    row with the new column values", the columns step 1 recomputes. *)
Definition setSessionColumns (session row : Session.t) : Session.t :=
  {| Session.ID := Session.ID row;
     Session.UUID := Session.UUID row;
     Session.SessionType := Session.SessionType row;
     Session.Status := Session.Status session;
     Session.ContactID := Session.ContactID row;
     Session.CurrentFlowID := Session.CurrentFlowID session;
     Session.ConnectionID := Session.ConnectionID row;
     Session.Responded := Session.Responded row;
     Session.Output := Session.Output session;
     Session.CreatedOn := Session.CreatedOn row;
     Session.EndedOn := Session.EndedOn session;
     Session.WaitStartedOn := Session.WaitStartedOn session;
     Session.WaitExpiresOn := Session.WaitExpiresOn session;
     Session.WaitResumeOnExpire := Session.WaitResumeOnExpire session;
     Session.Timeout := Session.Timeout session;
     Session.OrgID := Session.OrgID row |}.

(** Modelled from the spec: the statement of step 3 of [Session.Update]. *)
Definition updateSessionSQL (session : Session.t) (tx : DB) : DB :=
  {| flows_flowsession :=
       sql_update (fun id _ => bool_decide (id = Session.ID session))
                  (setSessionColumns session) (flows_flowsession tx);
     flows_flowrun := flows_flowrun tx;
     channels_channelconnection := channels_channelconnection tx |}.

(** Modelled from the spec: what the handler of an inbound message does to
    the session ("it may be set by the hook when messages arrive in the
    same sprint", spec section 4.E). *)
Definition markResponded (s : Session.t) : Session.t :=
  {| Session.ID := Session.ID s;
     Session.UUID := Session.UUID s;
     Session.SessionType := Session.SessionType s;
     Session.Status := Session.Status s;
     Session.ContactID := Session.ContactID s;
     Session.CurrentFlowID := Session.CurrentFlowID s;
     Session.ConnectionID := Session.ConnectionID s;
     Session.Responded := true;
     Session.Output := Session.Output s;
     Session.CreatedOn := Session.CreatedOn s;
     Session.EndedOn := Session.EndedOn s;
     Session.WaitStartedOn := Session.WaitStartedOn s;
     Session.WaitExpiresOn := Session.WaitExpiresOn s;
     Session.WaitResumeOnExpire := Session.WaitResumeOnExpire s;
     Session.Timeout := Session.Timeout s;
     Session.OrgID := Session.OrgID s |}.

(** Modelled from the spec: the event-hook pipeline of spec section 4.E
    step 5, as far as it writes sessions: handlers are dispatched on the
    event kind, and the handler of an inbound message marks the session as
    responded; the effects of the other handlers are on other tables. *)
Definition handleEvent (session : Session.t) (e : flows.Event.t) : Session.t :=
  if bool_decide (flows.Event.Type_ e = events.TypeMsgReceived)
  then markResponded session
  else session.

(** Modelled from the spec: the events of a sprint are applied "in engine
    emission order" (spec section 5). *)
Definition applyEvents (session : Session.t) (sprint : flows.Sprint.t) : Session.t :=
  foldl handleEvent session (flows.Sprint.Events sprint).

(** Modelled from the spec: the pre-commit write of the handler of an
    inbound message, on the row of the session. *)
Definition markRespondedSQL (session : Session.t) (tx : DB) : DB :=
  {| flows_flowsession :=
       sql_update (fun id _ => bool_decide (id = Session.ID session)
                               && Session.Responded session)
                  markResponded (flows_flowsession tx);
     flows_flowrun := flows_flowrun tx;
     channels_channelconnection := channels_channelconnection tx |}.

(** Modelled from the spec: the caller's pre-commit hook, spec section 6:
    it receives the sessions and may return an error. *)
Definition PreCommitHook := DB -> OrgAssets.t -> list Session.t -> option error.

(** Modelled from the spec: [Session.Update] of sessions.go (not under
    src/; its test is), spec section 4.F. The result is the session as the
    call leaves it in memory, the transaction, and the error returned; on
    an error the transaction is given back as it was received, for the
    caller to roll back. *)
Definition Update (drv : Driver) (now : Time) (tx : DB) (oa : OrgAssets.t)
    (session : Session.t) (fs : flows.Session.t) (sprint : flows.Sprint.t)
    (hook : PreCommitHook) : Session.t * DB * option error :=
  if terminalSessionStatus (Session.Status session)
  then (session, tx, Some (errors_New "illegal transition: session is terminal"))
  else
    match recomputeSession oa now session fs with
    | inl err => (session, tx, Some err)
    | inr session1 =>
        match writeRuns oa now session1 tx (flows.Session.Runs fs) with
        | inl err => (session1, tx, Some (errors_Wrapf err "error writing runs"))
        | inr tx1 =>
            match Exec drv "updating session" tx1 (updateSessionSQL session1) with
            | inl err => (session1, tx, Some (errors_Wrapf err "error updating session"))
            | inr tx2 =>
                let session2 := applyEvents session1 sprint in
                match Exec drv "applying events" tx2 (markRespondedSQL session2) with
                | inl err => (session2, tx, Some (errors_Wrapf err "error applying events"))
                | inr tx3 =>
                    match hook tx3 oa [session2] with
                    | Some err => (session2, tx, Some (errors_Wrapf err "error calling commit hook"))
                    | None => (session2, tx3, None)
                    end
                end
            end
        end
    end.

(** Modelled from the spec: a sequence of advances of one session; each
    element is the engine session, the sprint, the driver's answers and the
    time of one [Update]. *)
Record Advance : Type := mkAdvance {
  adv_drv : Driver;
  adv_now : Time;
  adv_session : flows.Session.t;
  adv_sprint : flows.Sprint.t
}.

(** Modelled from the spec: the advances applied one after the other, each
    on the session and the database the previous one left. *)
Fixpoint updates (oa : OrgAssets.t) (hook : PreCommitHook) (session : Session.t)
    (db : DB) (advances : list Advance) : Session.t * DB :=
  match advances with
  | [] => (session, db)
  | a :: rest =>
      let '(session', db', _) :=
        Update (adv_drv a) (adv_now a) db oa session (adv_session a) (adv_sprint a) hook in
      updates oa hook session' db' rest
  end.

(** * Specification-side definitions and fixtures *)

(** The exit type the specification derives from a persisted run status:
    "exit-type is derived from terminal status (I to I, C to C, X to E, F to
    F) and null otherwise". *)
Definition exitTypeOfStatus_spec (status : RunStatus) : ExitType :=
  if bool_decide (status = "I") then "I"
  else if bool_decide (status = "C") then "C"
  else if bool_decide (status = "X") then "E"
  else if bool_decide (status = "F") then "F"
  else "".

(** Fixtures in the manner of the package's tests: an organization with
    two flows, and contacts Cathy, Bob and George. *)
Definition Org1 : OrgID := 1%Z.
Definition FavoritesID : FlowID := 10000%Z.
Definition PickANumberID : FlowID := 10001%Z.
Definition CathyID : ContactID := 10000%Z.
Definition BobID : ContactID := 10001%Z.
Definition GeorgeID : ContactID := 10002%Z.
Definition TwilioChannelID : ChannelID := 10000%Z.
Definition VonageChannelID : ChannelID := 10001%Z.

Definition testAssets : OrgAssets.t :=
  {| OrgAssets.OrgID := Org1;
     OrgAssets.Flows := {[ "favorites-uuid" := FavoritesID; "pick-uuid" := PickANumberID ]} |}.

Definition testSession (id : SessionID) (contactID : ContactID) (sessionType : FlowType)
    (status : SessionStatus) (flowID : FlowID) (connID : option ConnectionID) : Session.t :=
  let waiting := bool_decide (status = SessionStatusWaiting) in
  {| Session.ID := id;
     Session.UUID := "";
     Session.SessionType := sessionType;
     Session.Status := status;
     Session.ContactID := contactID;
     Session.CurrentFlowID := if waiting then Some flowID else None;
     Session.ConnectionID := connID;
     Session.Responded := false;
     Session.Output := "{}";
     Session.CreatedOn := 100%Z;
     Session.EndedOn := if waiting then None else Some 150%Z;
     Session.WaitStartedOn := if waiting then Some 100%Z else None;
     Session.WaitExpiresOn := if waiting then Some 500%Z else None;
     Session.WaitResumeOnExpire := false;
     Session.Timeout := None;
     Session.OrgID := Org1 |}.

Definition testRun (id : FlowRunID) (sessionID : SessionID) (contactID : ContactID)
    (status : RunStatus) (flowID : FlowID) : FlowRun.r_t :=
  let active := bool_decide (status = RunStatusActive) || bool_decide (status = RunStatusWaiting) in
  {| FlowRun.ID := id;
     FlowRun.UUID := "";
     FlowRun.Status := status;
     FlowRun.CreatedOn := 100%Z;
     FlowRun.ModifiedOn := 100%Z;
     FlowRun.ExitedOn := if active then None else Some 150%Z;
     FlowRun.ExpiresOn := if active then Some 500%Z else None;
     FlowRun.Responded := false;
     FlowRun.Results := ∅;
     FlowRun.Path := [];
     FlowRun.CurrentNodeUUID := "";
     FlowRun.ContactID := contactID;
     FlowRun.FlowID := flowID;
     FlowRun.OrgID := Org1;
     FlowRun.ParentUUID := None;
     FlowRun.SessionID := sessionID;
     FlowRun.StartID := NilStartID;
     FlowRun.ConnectionID := None;
     FlowRun.IsActive := active;
     FlowRun.ExitType := go_index runStatusToExitType status |}.

(** [insertSessionAndRun] of the tests: a session and one run of the same
    status. *)
Definition insertSessionAndRun (db : DB) (id : Z) (contactID : ContactID)
    (sessionType : FlowType) (status : SessionStatus) (flowID : FlowID)
    (connID : option ConnectionID) : DB :=
  {| flows_flowsession :=
       <[id := testSession id contactID sessionType status flowID connID]> (flows_flowsession db);
     flows_flowrun :=
       <[id := testRun id id contactID status flowID]> (flows_flowrun db);
     channels_channelconnection := channels_channelconnection db |}.

Definition emptyDB : DB :=
  {| flows_flowsession := ∅; flows_flowrun := ∅; channels_channelconnection := ∅ |}.

(** A driver that answers every request without error. *)
Definition okDriver : Driver :=
  {| begin_err := None; exec_err := fun _ => None; commit_err := None; query_err := None |}.

(** The statuses of a session and of its run, as [assertSessionAndRunStatus]
    reads them. *)
Definition sessionAndRunStatus (db : DB) (id : Z) : option (SessionStatus * RunStatus) :=
  match flows_flowsession db !! id, flows_flowrun db !! id with
  | Some s, Some fr => Some (Session.Status s, FlowRun.Status fr)
  | _, _ => None
  end.

(** The four sessions of [TestInterruptSessionsForContacts]. *)
Definition contactsTestDB : DB :=
  insertSessionAndRun
    (insertSessionAndRun
       (insertSessionAndRun
          (insertSessionAndRun emptyDB 1%Z CathyID FlowTypeMessaging SessionStatusCompleted FavoritesID None)
          2%Z CathyID FlowTypeMessaging SessionStatusWaiting FavoritesID None)
       3%Z BobID FlowTypeMessaging SessionStatusWaiting FavoritesID None)
    4%Z GeorgeID FlowTypeMessaging SessionStatusWaiting FavoritesID None.

(** An engine run of the favorites flow that received a message and
    completed, and the session it belongs to. *)
Definition bobEngineRun : flows.Run.t :=
  {| flows.Run.UUID := "run-1";
     flows.Run.Status := flows.RunStatusCompleted;
     flows.Run.CreatedOn := 100%Z;
     flows.Run.ExitedOn := Some 200%Z;
     flows.Run.ExpiresOn := None;
     flows.Run.ModifiedOn := 200%Z;
     flows.Run.ContactID := BobID;
     flows.Run.FlowReferenceUUID := "favorites-uuid";
     flows.Run.Path :=
       [ flows.Step.mk "step-1" "node-1" 100%Z "exit-1";
         flows.Step.mk "step-2" "node-2" 200%Z "" ];
     flows.Run.Results := ∅;
     flows.Run.Events :=
       [ flows.Event.mk "msg_created" 100%Z; flows.Event.mk "msg_received" 200%Z ];
     flows.Run.Parent := Some "run-0" |}.

Definition bobSession : Session.t :=
  testSession 7%Z BobID FlowTypeMessaging SessionStatusWaiting FavoritesID None.

(** The sessions of [TestInterruptSessionsOfTypeForContacts]: George's is a
    voice session. *)
Definition typeTestDB : DB :=
  insertSessionAndRun
    (insertSessionAndRun
       (insertSessionAndRun
          (insertSessionAndRun emptyDB 1%Z CathyID FlowTypeMessaging SessionStatusCompleted FavoritesID None)
          2%Z CathyID FlowTypeMessaging SessionStatusWaiting FavoritesID None)
       3%Z BobID FlowTypeMessaging SessionStatusWaiting FavoritesID None)
    4%Z GeorgeID FlowTypeVoice SessionStatusWaiting FavoritesID None.

(** The connections and sessions of [TestInterruptSessionsForChannels] and
    [TestInterruptSessionsForFlows]: three connections on the Twilio
    channel and George's on the Vonage channel; with [georgeFlow] the flow
    of George's session. *)
Definition connectionsTestDB (georgeFlow : FlowID) : DB :=
  let connections : gmap ConnectionID ChannelID :=
    {[ 1%Z := TwilioChannelID; 2%Z := TwilioChannelID;
       3%Z := TwilioChannelID; 4%Z := VonageChannelID ]} in
  let db := {| flows_flowsession := ∅; flows_flowrun := ∅;
               channels_channelconnection := connections |} in
  insertSessionAndRun
    (insertSessionAndRun
       (insertSessionAndRun
          (insertSessionAndRun db 1%Z CathyID FlowTypeMessaging SessionStatusCompleted FavoritesID (Some 1%Z))
          2%Z CathyID FlowTypeMessaging SessionStatusWaiting FavoritesID (Some 2%Z))
       3%Z BobID FlowTypeMessaging SessionStatusWaiting FavoritesID (Some 3%Z))
    4%Z GeorgeID FlowTypeMessaging SessionStatusWaiting georgeFlow (Some 4%Z).

(** The advances of [TestSessionCreationAndUpdating] on Bob's waiting
    session: the answer "no", after which the flow waits again, and the
    answer "yes", after which it completes. *)
Definition bobWaitingRun (status : flows.RunStatus) (modifiedOn : Time)
    (evts : list flows.Event.t) : flows.Run.t :=
  {| flows.Run.UUID := "run-1";
     flows.Run.Status := status;
     flows.Run.CreatedOn := 100%Z;
     flows.Run.ExitedOn :=
       if bool_decide (status = flows.RunStatusCompleted) then Some modifiedOn else None;
     flows.Run.ExpiresOn := Some 5000%Z;
     flows.Run.ModifiedOn := modifiedOn;
     flows.Run.ContactID := BobID;
     flows.Run.FlowReferenceUUID := "favorites-uuid";
     flows.Run.Path := [ flows.Step.mk "step-1" "node-1" 100%Z "" ];
     flows.Run.Results := ∅;
     flows.Run.Events := evts;
     flows.Run.Parent := None |}.

Definition bobDB : DB :=
  {| flows_flowsession := {[ 7%Z := bobSession ]};
     flows_flowrun :=
       match newRun testAssets bobSession (bobWaitingRun flows.RunStatusWaiting 100%Z []) with
       | inr run => {[ 1%Z := insertedRun 1%Z None (FlowRun.r run) ]}
       | inl _ => ∅
       end;
     channels_channelconnection := ∅ |}.

Definition bobAnswersNo : Advance :=
  let evts := [ flows.Event.mk "msg_received" 200%Z; flows.Event.mk "msg_created" 200%Z ] in
  {| adv_drv := okDriver;
     adv_now := 200%Z;
     adv_session :=
       {| flows.Session.Status := flows.SessionStatusWaiting;
          flows.Session.Runs := [ bobWaitingRun flows.RunStatusWaiting 200%Z evts ];
          flows.Session.Wait := Some (flows.Wait.mk 200%Z (Some 5000%Z) None);
          flows.Session.Output := "{2}" |};
     adv_sprint := {| flows.Sprint.Events := evts |} |}.

Definition bobAnswersYes : Advance :=
  let evts := [ flows.Event.mk "msg_received" 300%Z; flows.Event.mk "run_result_changed" 300%Z ] in
  {| adv_drv := okDriver;
     adv_now := 300%Z;
     adv_session :=
       {| flows.Session.Status := flows.SessionStatusCompleted;
          flows.Session.Runs := [ bobWaitingRun flows.RunStatusCompleted 300%Z evts ];
          flows.Session.Wait := None;
          flows.Session.Output := "{3}" |};
     adv_sprint := {| flows.Sprint.Events := evts |} |}.

(** A pre-commit hook that does nothing. *)
Definition noHook : PreCommitHook := fun _ _ _ => None.

(** Modelled from the spec: the four interruption operations of spec
    section 4.G, as one family. *)
Inductive Interruption : Type :=
| ForContacts (contactIDs : list ContactID)
| OfTypeForContacts (contactIDs : list ContactID) (sessionType : FlowType)
| ForChannels (channelIDs : list ChannelID)
| ForFlows (flowIDs : list FlowID).

(** Modelled from the spec: the call of an interruption operation. *)
Definition interrupt (drv : Driver) (now : Time) (db : DB) (op : Interruption) : DB * option error :=
  match op with
  | ForContacts contactIDs => InterruptSessionsForContacts drv now db contactIDs
  | OfTypeForContacts contactIDs sessionType =>
      InterruptSessionsOfTypeForContacts drv now db contactIDs sessionType
  | ForChannels channelIDs => InterruptSessionsForChannels drv now db channelIDs
  | ForFlows flowIDs => InterruptSessionsForFlows drv now db flowIDs
  end.

(** * The rest of runs.go: the insert statement and the overlap queries *)

(** The row [insertRunSQL] stores for a record: every column is the
    record's but [id], which the table generates, and [modified_on], which
    the statement sets to [NOW()] instead of the record's. *)
Definition insertRunRow (id : FlowRunID) (now : Time) (r : FlowRun.r_t) : FlowRun.r_t :=
  {| FlowRun.ID := id;
     FlowRun.UUID := FlowRun.UUID r;
     FlowRun.Status := FlowRun.Status r;
     FlowRun.CreatedOn := FlowRun.CreatedOn r;
     FlowRun.ModifiedOn := now;
     FlowRun.ExitedOn := FlowRun.ExitedOn r;
     FlowRun.ExpiresOn := FlowRun.ExpiresOn r;
     FlowRun.Responded := FlowRun.Responded r;
     FlowRun.Results := FlowRun.Results r;
     FlowRun.Path := FlowRun.Path r;
     FlowRun.CurrentNodeUUID := FlowRun.CurrentNodeUUID r;
     FlowRun.ContactID := FlowRun.ContactID r;
     FlowRun.FlowID := FlowRun.FlowID r;
     FlowRun.OrgID := FlowRun.OrgID r;
     FlowRun.ParentUUID := FlowRun.ParentUUID r;
     FlowRun.SessionID := FlowRun.SessionID r;
     FlowRun.StartID := FlowRun.StartID r;
     FlowRun.ConnectionID := FlowRun.ConnectionID r;
     FlowRun.IsActive := FlowRun.IsActive r;
     FlowRun.ExitType := FlowRun.ExitType r |}.

(** [insertRunSQL]: INSERT INTO flows_flowrun(...) VALUES(...) RETURNING
    id, for one record. The id comes from the table's sequence; the
    embedding takes the one after the largest id in the table, and the
    properties below use only that it is not in the table. The result is
    the transaction after the statement and the id returned. *)
Definition insertRunSQL (now : Time) (r : FlowRun.r_t) (tx : DB) : DB * FlowRunID :=
  let id := nextID (flows_flowrun tx) in
  ({| flows_flowsession := flows_flowsession tx;
      flows_flowrun := <[id := insertRunRow id now r]> (flows_flowrun tx);
      channels_channelconnection := channels_channelconnection tx |},
   id).

(** [db.SelectContext(ctx, &dest, sql, args)] into a slice: the rows of the
    query, or the driver's error and the slice left nil. *)
Definition SelectContext {A : Type} (drv : Driver) (rows : list A) : list A * option error :=
  match query_err drv with
  | Some err => ([], Some err)
  | None => (rows, None)
  end.

(** [flowStartedOverlapSQL]: SELECT DISTINCT(contact_id) FROM flows_flowrun
    WHERE contact_id = ANY($1) AND flow_id = $2. SQL leaves the order of
    the rows open; the embedding lists them in the order of the table. *)
Definition flowStartedOverlapSQL (contacts : list ContactID) (flowID : FlowID) (db : DB) : list ContactID :=
  remove_dups
    (FlowRun.ContactID <$>
       filter (fun fr => sql_any (FlowRun.ContactID fr) contacts = true
                         ∧ FlowRun.FlowID fr = flowID)
              (map_to_list (flows_flowrun db)).*2).

(** [FindFlowStartedOverlap] returns the list of contact ids which overlap
    with those passed in and which have been in the flow passed in. *)
Definition FindFlowStartedOverlap (drv : Driver) (db : DB) (flowID : FlowID)
    (contacts : list ContactID) : list ContactID * option error :=
  SelectContext drv (flowStartedOverlapSQL contacts flowID db).

(** A row of [flows_flow], with the columns [activeSessionOverlapSQL]
    reads; the table is keyed by [id]. *)
Module Flow.
Record t : Type := mk {
  IsActive : bool;
  IsArchived : bool;
  FlowType : FlowType
}.
End Flow.

(** The WHERE clause of [activeSessionOverlapSQL] on a session row joined
    with the row of its current flow; a session without a current flow, or
    whose flow has no row, joins with nothing. *)
Definition activeSessionJoin (flows_flow : gmap FlowID Flow.t) (flowType : FlowType)
    (contacts : list ContactID) (fs : Session.t) : bool :=
  match Session.CurrentFlowID fs with
  | Some flowID =>
      match flows_flow !! flowID with
      | Some ff =>
          bool_decide (Session.Status fs = "W")
          && bool_decide (Flow.IsActive ff = true)
          && bool_decide (Flow.IsArchived ff = false)
          && bool_decide (Flow.FlowType ff = flowType)
          && sql_any (Session.ContactID fs) contacts
      | None => false
      end
  | None => false
  end.

(** [activeSessionOverlapSQL]: SELECT DISTINCT(contact_id) FROM
    flows_flowsession fs JOIN flows_flow ff ON fs.current_flow_id = ff.id
    WHERE ..., in the order of the session table. *)
Definition activeSessionOverlapSQL (flowType : FlowType) (contacts : list ContactID)
    (flows_flow : gmap FlowID Flow.t) (db : DB) : list ContactID :=
  remove_dups
    (Session.ContactID <$>
       filter (fun fs => activeSessionJoin flows_flow flowType contacts fs = true)
              (map_to_list (flows_flowsession db)).*2).

(** [FindActiveSessionOverlap] returns the list of contact ids which
    overlap with those passed in which are active in any other flows. The
    table [flows_flow] of the database is passed beside the other
    tables. *)
Definition FindActiveSessionOverlap (drv : Driver) (flows_flow : gmap FlowID Flow.t)
    (db : DB) (flowType : FlowType) (contacts : list ContactID) : list ContactID * option error :=
  (* background flows should look at messaging flows when determing overlap *)
  let flowType :=
    if bool_decide (flowType = FlowTypeBackground) then FlowTypeMessaging else flowType in
  SelectContext drv (activeSessionOverlapSQL flowType contacts flows_flow db).

(** The flows of the test organization. *)
Definition testFlows : gmap FlowID Flow.t :=
  {[ FavoritesID := Flow.mk true false FlowTypeMessaging;
     PickANumberID := Flow.mk true true FlowTypeMessaging ]}.

(** An engine run that has entered no node yet and whose status is none
    of the engine's five. *)
Definition strayEngineRun : flows.Run.t :=
  {| flows.Run.UUID := "run-9";
     flows.Run.Status := "interrupted";
     flows.Run.CreatedOn := 100%Z;
     flows.Run.ExitedOn := None;
     flows.Run.ExpiresOn := None;
     flows.Run.ModifiedOn := 100%Z;
     flows.Run.ContactID := CathyID;
     flows.Run.FlowReferenceUUID := "pick-uuid";
     flows.Run.Path := [];
     flows.Run.Results := ∅;
     flows.Run.Events := [];
     flows.Run.Parent := None |}.

(** * Package redisx: the locker (utils/redisx/locker.go) *)

Module redisx.

(** [time.Duration], in nanoseconds, and [time.Second]. *)
Abbreviation Duration := Z.
Definition time_Second : Duration := 1000000000%Z.

(** A string key of Redis that has a time to live, in seconds. *)
Record Entry : Type := mkEntry {
  value : string;
  ttl : Z
}.

#[global] Instance Entry_eq_dec : EqDecision Entry.
Proof. solve_decision. Defined.

(** The keys of the Redis database, as far as the locker is concerned. *)
Abbreviation Redis := (gmap string Entry).

(** The replies the locker looks at. *)
Inductive Reply : Type :=
| ReplyOK
| ReplyNil
| ReplyInt (n : Z).

(** [SET key value EX seconds NX]: sets the key, with its time to live,
    only if the key does not exist; a time to live that is not positive is
    refused. *)
Definition SET_EX_NX (key val : string) (seconds : Z) (store : Redis) : Redis * (error + Reply) :=
  if bool_decide (seconds ≤ 0)%Z
  then (store, inl (errors_New "ERR invalid expire time in 'set' command"))
  else
    match store !! key with
    | Some _ => (store, inr ReplyNil)
    | None => (<[key := mkEntry val seconds]> store, inr ReplyOK)
    end.

(** [EXPIRE key seconds]: sets the time to live of an existing key; a time
    to live that is not positive deletes the key. *)
Definition EXPIRE (key : string) (seconds : Z) (store : Redis) : Redis * Z :=
  match store !! key with
  | Some e =>
      if bool_decide (seconds ≤ 0)%Z then (delete key store, 1%Z)
      else (<[key := mkEntry (value e) seconds]> store, 1%Z)
  | None => (store, 0%Z)
  end.

(** [DEL key]. *)
Definition DEL (key : string) (store : Redis) : Redis * Z :=
  match store !! key with
  | Some _ => (delete key store, 1%Z)
  | None => (store, 0%Z)
  end.

(** [releaseScript]: if redis.call("GET", KEYS[1]) == KEYS[2] then return
    redis.call("DEL", KEYS[1]) else return 0 end. The GET of a missing key
    is false, which equals no string. *)
Definition releaseScript (key val : string) (store : Redis) : Redis * Z :=
  if bool_decide (value <$> store !! key = Some val) then DEL key store
  else (store, 0%Z).

(** [expireScript]: if redis.call("GET", KEYS[1]) == KEYS[2] then return
    redis.call("EXPIRE", KEYS[1], KEYS[3]) else return 0 end. *)
Definition expireScript (key val : string) (seconds : Z) (store : Redis) : Redis * Z :=
  if bool_decide (value <$> store !! key = Some val) then EXPIRE key seconds store
  else (store, 0%Z).

Record Locker : Type := mkLocker {
  name : string;
  expiration : Duration
}.

(** [NewLocker] creates a new locker with the given name and expiration. *)
Definition NewLocker (name : string) (expiration : Duration) : Locker :=
  {| name := name; expiration := expiration |}.

Definition key (l : Locker) : string := "lock:" ++ name l.

Definition letterBytes : string := "abcdefghijklmnopqrstuvwxyzABCDEFGHIJKLMNOPQRSTUVWXYZ".

(** [rand.Intn(n)] on the next output [src] of the random source: a
    number below [n]. *)
Definition rand_Intn (src n : nat) : nat := src mod n.

(** [letterBytes[i]]; the index is always in range here. *)
Definition letterAt (i : nat) : Ascii.ascii :=
  default Ascii.zero (String.get i letterBytes).

(** [makeRandom] creates a random key of the length passed in; [rnd] gives
    the successive outputs of the random source. *)
Definition makeRandom (rnd : nat -> nat) (n : nat) : string :=
  String.string_of_list_ascii
    ((fun i => letterAt (rand_Intn (rnd i) (String.length letterBytes))) <$> seq 0 n).

(** What one iteration of the loop of [Grab] meets: the database at the
    moment its SET is executed (other clients and the expiry of keys
    change it between the iterations, a SET that fails does not), the
    error of the connection, if any, and the time since the start of
    [Grab] when the iteration looks at the clock. *)
Record Attempt : Type := mkAttempt {
  att_store : Redis;
  att_err : option error;
  att_elapsed : Duration
}.

(** The loop of [Grab] over the iterations the environment answers; [None]
    when the loop is still running after the last of them. *)
Fixpoint grabLoop (key val : string) (expires : Z) (retry : Duration)
    (attempts : list Attempt) : option (Redis * string * option error) :=
  match attempts with
  | [] => None
  | a :: rest =>
      match att_err a with
      | Some err => Some (att_store a, "", Some (errors_Wrapf err "error trying to get lock"))
      | None =>
          match SET_EX_NX key val expires (att_store a) with
          | (store, inl err) => Some (store, "", Some (errors_Wrapf err "error trying to get lock"))
          | (store, inr ReplyOK) => Some (store, val, None)
          | (store, inr _) =>
              if bool_decide (retry < att_elapsed a)%Z then Some (store, "", None)
              else grabLoop key val expires retry rest
          end
      end
  end.

(** [Grab] tries to grab this lock in an atomic operation. It returns the
    lock value if successful, and the empty string if the lock was not
    acquired within the retry period. The result holds the database as the
    last SET left it. *)
Definition Grab (l : Locker) (rnd : nat -> nat) (retry : Duration) (attempts : list Attempt)
    : option (Redis * string * option error) :=
  let val := makeRandom rnd 10 in               (* generate our lock value *)
  let expires := (expiration l `quot` time_Second)%Z in  (* convert our expiration to seconds *)
  grabLoop (key l) val expires retry attempts.

(** [Release] releases this lock if the given lock value is correct (i.e we
    own this lock). [conn_err] is the error of the connection, if any. *)
Definition Release (l : Locker) (conn_err : option error) (store : Redis) (val : string)
    : Redis * option error :=
  match conn_err with
  | Some err => (store, Some err)
  | None => ((releaseScript (key l) val store).1, None)
  end.

(** [Extend] extends our lock expiration by the passed in number of seconds
    provided the lock value is correct. *)
Definition Extend (l : Locker) (conn_err : option error) (store : Redis) (val : string)
    (expiration : Duration) : Redis * option error :=
  let seconds := (expiration `quot` time_Second)%Z in
  match conn_err with
  | Some err => (store, Some err)
  | None => ((expireScript (key l) val seconds store).1, None)
  end.

End redisx.

(** A locker for contact 10001 that holds for a minute, a random source,
    and an environment in which the lock is held by another client for the
    first of three iterations. *)
Definition contactLocker : redisx.Locker := redisx.NewLocker "c:10001" 60000000000%Z.

Definition testRandom (i : nat) : nat := (7 * i + 3)%nat.

Definition heldStore : redisx.Redis := {[ "lock:c:10001" := redisx.mkEntry "someoneelse" 12%Z ]}.

Definition testAttempts : list redisx.Attempt :=
  [ redisx.mkAttempt heldStore None 1000%Z;
    redisx.mkAttempt ∅ None 1000001000%Z;
    redisx.mkAttempt ∅ None 2000001000%Z ].

(** * Package resumes of goflow (vendor/.../flows/resumes/base.go) *)

(** [err.Error()]: the message of an error. *)
Fixpoint error_Error (err : error) : string :=
  match err with
  | sql_ErrNoRows => "sql: no rows in result set"
  | errors_New msg => msg
  | errors_Wrapf cause msg => msg ++ ": " ++ error_Error cause
  end.

Module resumes.

Section Resumes.

(** The types of the engine the file names, and the functions of other
    packages it calls: [utils.ReadTypeFromJSON], [json.Marshal] on an
    environment and on a contact, [utils.ReadEnvironment],
    [flows.ReadContact] (for given assets), the [Equal] methods of
    environments and contacts, the constructors of the two events, and
    [triggers.EnsureDynamicGroups], which recomputes the groups of the
    session's contact. JSON text ([json.RawMessage]) is a string. *)
Context {Session Resume Environment Contact Event Step : Type}.
Variable ReadTypeFromJSON : string -> error + string.
Variable MarshalEnvironment : Environment -> error + string.
Variable MarshalContact : Contact -> error + string.
Variable ReadEnvironment : string -> error + Environment.
Variable ReadContact : Session -> string -> error + Contact.
Variable EnvironmentEqual : Environment -> Environment -> bool.
Variable ContactEqual : Contact -> Contact -> bool.
Variable NewEnvironmentChangedEvent : Environment -> Event.
Variable NewContactChangedEvent : Contact -> Event.
Variable EnsureDynamicGroups : Environment -> Contact -> Contact.

Definition readFunc : Type := Session -> string -> error + Resume.

(** [RegisterType] registers a new type of trigger: [registeredTypes[name]
    = f]. The registry is passed and returned. *)
Definition RegisterType (name : string) (f : readFunc)
    (registeredTypes : gmap string readFunc) : gmap string readFunc :=
  <[name := f]> registeredTypes.

(** [ReadResume] reads a resume from the given JSON. *)
Definition ReadResume (registeredTypes : gmap string readFunc) (session : Session)
    (data : string) : error + Resume :=
  match ReadTypeFromJSON data with
  | inl err => inl err
  | inr typeName =>
      match registeredTypes !! typeName with
      | None => inl (errors_New ("unknown type: " ++ typeName))
      | Some f => f session data
      end
  end.

Record baseResume : Type := mkBaseResume {
  type_ : string;
  environment : option Environment;
  contact : option Contact;
  resumedOn : Time
}.

(** [newBaseResume], with the value of [utils.Now()]. *)
Definition newBaseResume (typeName : string) (env : option Environment)
    (contact : option Contact) (now : Time) : baseResume :=
  {| type_ := typeName; environment := env; contact := contact; resumedOn := now |}.

(** What [Apply] reads and writes of the run: the environment and the
    contact of its session, and the events it has logged, each with its
    step. *)
Record RunState : Type := mkRunState {
  sessionEnvironment : Environment;
  sessionContact : Contact;
  loggedEvents : list (Step * Event)
}.

(** [Apply] applies our state changes and saves any events to the run; it
    always returns nil. The contact of the resume is a pointer, which
    [SetContact] stores in the session: the contact whose groups
    [EnsureDynamicGroups] recomputes is the resume's own, so the resume is
    returned as the call leaves it, beside the run. *)
Definition Apply (r : baseResume) (run : RunState) (step : Step)
    : baseResume * RunState * option error :=
  let run :=
    match environment r with
    | Some env =>
        let logged :=
          if negb (EnvironmentEqual (sessionEnvironment run) env)
          then (loggedEvents run ++ [(step, NewEnvironmentChangedEvent env)])%list
          else loggedEvents run in
        {| sessionEnvironment := env;
           sessionContact := sessionContact run;
           loggedEvents := logged |}
    | None => run
    end in
  match contact r with
  | Some c =>
      let logged :=
        if negb (ContactEqual (sessionContact run) c)
        then (loggedEvents run ++ [(step, NewContactChangedEvent c)])%list
        else loggedEvents run in
      let c' := EnsureDynamicGroups (sessionEnvironment run) c in
      ({| type_ := type_ r; environment := environment r;
          contact := Some c'; resumedOn := resumedOn r |},
       {| sessionEnvironment := sessionEnvironment run;
          sessionContact := c';
          loggedEvents := logged |},
       None)
  | None => (r, run, None)
  end.

Record baseResumeEnvelope : Type := mkEnvelope {
  env_Type : string;
  env_Environment : option string;
  env_Contact : option string;
  env_ResumedOn : Time
}.

(** [unmarshal]: fills the resume from the envelope; the resume is returned
    as the call leaves it. A failed read leaves nil in its field. *)
Definition unmarshal (r : baseResume) (session : Session) (e : baseResumeEnvelope)
    : baseResume * option error :=
  let r := {| type_ := env_Type e; environment := environment r;
              contact := contact r; resumedOn := env_ResumedOn e |} in
  let '(r, err) :=
    match env_Environment e with
    | Some raw =>
        match ReadEnvironment raw with
        | inl err =>
            ({| type_ := type_ r; environment := None;
                contact := contact r; resumedOn := resumedOn r |},
             Some (errors_New ("unable to read environment: " ++ error_Error err)))
        | inr env =>
            ({| type_ := type_ r; environment := Some env;
                contact := contact r; resumedOn := resumedOn r |}, None)
        end
    | None => (r, None)
    end in
  match err with
  | Some err => (r, Some err)
  | None =>
      match env_Contact e with
      | Some raw =>
          match ReadContact session raw with
          | inl err =>
              ({| type_ := type_ r; environment := environment r;
                  contact := None; resumedOn := resumedOn r |},
               Some (errors_New ("unable to read contact: " ++ error_Error err)))
          | inr c =>
              ({| type_ := type_ r; environment := environment r;
                  contact := Some c; resumedOn := resumedOn r |}, None)
          end
      | None => (r, None)
      end
  end.

(** [marshal]: fills the envelope from the resume; the envelope is returned
    as the call leaves it. *)
Definition marshal (r : baseResume) (e : baseResumeEnvelope) : baseResumeEnvelope * option error :=
  let e := {| env_Type := type_ r; env_Environment := env_Environment e;
              env_Contact := env_Contact e; env_ResumedOn := resumedOn r |} in
  let '(e, err) :=
    match environment r with
    | Some env =>
        match MarshalEnvironment env with
        | inl err =>
            ({| env_Type := env_Type e; env_Environment := None;
                env_Contact := env_Contact e; env_ResumedOn := env_ResumedOn e |}, Some err)
        | inr raw =>
            ({| env_Type := env_Type e; env_Environment := Some raw;
                env_Contact := env_Contact e; env_ResumedOn := env_ResumedOn e |}, None)
        end
    | None => (e, None)
    end in
  match err with
  | Some err => (e, Some err)
  | None =>
      match contact r with
      | Some c =>
          match MarshalContact c with
          | inl err =>
              ({| env_Type := env_Type e; env_Environment := env_Environment e;
                  env_Contact := None; env_ResumedOn := env_ResumedOn e |}, Some err)
          | inr raw =>
              ({| env_Type := env_Type e; env_Environment := env_Environment e;
                  env_Contact := Some raw; env_ResumedOn := env_ResumedOn e |}, None)
          end
      | None => (e, None)
      end
  end.

End Resumes.

End resumes.

(** Stand-ins for the engine in examples of the resumes package:
    environments and contacts are strings, JSON text is the string itself
    and is read back as it is, the type of a resume is its whole JSON
    text, and the dynamic groups of a contact depend on nothing. *)
Definition exReadType (data : string) : error + string :=
  if bool_decide (data = "") then inl (errors_New "field 'type' is required") else inr data.

Definition exReadMsg : @resumes.readFunc unit string :=
  fun _ data => inr ("resume:" ++ data).

Definition exResume : @resumes.baseResume string string :=
  resumes.newBaseResume "msg" (Some "env-2") (Some "bob") 500%Z.

Definition exRun : @resumes.RunState string string string nat :=
  {| resumes.sessionEnvironment := "env-1";
     resumes.sessionContact := "bob";
     resumes.loggedEvents := [] |}.

Definition exApply :=
  resumes.Apply (Step := nat) String.eqb String.eqb
    (fun env => "environment_changed:" ++ env) (fun c => "contact_changed:" ++ c)
    (fun _ c => c).

(** * Package web/contact: the creation handler (web/contact/contact.go) *)

Module contact.

(** The status codes of [net/http] that the handlers return. *)
Definition StatusOK : Z := 200%Z.
Definition StatusBadRequest : Z := 400%Z.
Definition StatusInternalServerError : Z := 500%Z.

Section Handlers.

(** The request body, the organization assets, the contacts of the models
    and of the engine, URNs and the state of the database, and the
    functions of other packages the handler calls:
    [utils.UnmarshalAndValidateWithLimit] into a [createRequest],
    [models.GetOrgAssets] and [models.CreateContact], which writes to the
    database. *)
Context {Body Assets ModelContact FlowContact URN Database : Type}.

(** One contact of a [createRequest]. *)
Record contactSpec : Type := mkContactSpec {
  Name : string;
  Languge : string;
  URNs : list URN;
  Fields : gmap string string;
  Groups : list string
}.

Record createRequest : Type := mkCreateRequest {
  OrgID : Z;
  UserID : Z;
  Contacts : list contactSpec
}.

Record createResult : Type := mkCreateResult {
  Contact : option FlowContact;
  Error : string
}.

(** The first result of a handler: an error to send as the body, the
    results, or nil. *)
Inductive Response : Type :=
| ResponseError (err : error)
| ResponseResults (results : list createResult)
| ResponseNil.

Variable UnmarshalAndValidateWithLimit : Body -> error + createRequest.
Variable GetOrgAssets : Database -> Z -> error + Assets.
Variable CreateContact :
  Database -> Assets -> Z -> string -> string -> list URN ->
  Database * (error + ModelContact * FlowContact).

(** The loop of [handleCreate] over the contacts of the request: the i-th
    result gets the error or the contact of the i-th creation. *)
Fixpoint createContacts (db : Database) (org : Assets) (userID : Z)
    (contacts : list contactSpec) : Database * list createResult :=
  match contacts with
  | [] => (db, [])
  | c :: rest =>
      let '(db, created) := CreateContact db org userID (Name c) (Languge c) (URNs c) in
      let result :=
        match created with
        | inl err => {| Contact := None; Error := error_Error err |}
        | inr (_, flowContact) => {| Contact := Some flowContact; Error := "" |}
        end in
      let '(db, results) := createContacts db org userID rest in
      (db, result :: results)
  end.

(** [handleCreate] handles a request to create the given contacts; the
    result is the database after the request and the three values the
    handler returns. *)
Definition handleCreate (db : Database) (body : Body)
    : Database * (Response * Z * option error) :=
  match UnmarshalAndValidateWithLimit body with
  | inl err =>
      (db, (ResponseError (errors_Wrapf err "request failed validation"),
            StatusBadRequest, None))
  | inr request =>
      (* grab our org *)
      match GetOrgAssets db (OrgID request) with
      | inl err =>
          (db, (ResponseNil, StatusInternalServerError,
                Some (errors_Wrapf err "unable to load org assets")))
      | inr org =>
          let '(db, results) := createContacts db org (UserID request) (Contacts request) in
          (db, (ResponseResults results, StatusOK, None))
      end
  end.

End Handlers.

End contact.

(** Stand-ins in examples of the creation handler: the body is the list of
    the names to create, the database counts the contacts, and a contact
    without name cannot be created. *)
Definition exUnmarshal (body : list string)
    : error + @contact.createRequest unit :=
  if bool_decide (body = []) then inl (errors_New "field 'contacts' is required")
  else inr (contact.mkCreateRequest 1%Z 1%Z
              ((fun n => contact.mkContactSpec n "eng" [] ∅ []) <$> body)).

Definition exCreateContact (db : nat) (org : unit) (userID : Z) (name lang : string)
    (urns : list unit) : nat * (error + nat * string) :=
  if bool_decide (name = "") then (db, inl (errors_New "contact has no name"))
  else (S db, inr (S db, name)).

Definition exHandleCreate :=
  contact.handleCreate exUnmarshal (fun (_ : nat) (_ : Z) => inr ()) exCreateContact.

(** * Properties of the status vocabulary and of newRun *)

Section NewRun.

Implicit Types (oa : OrgAssets.t) (session : Session.t) (fr : flows.Run.t).

(** The translation of an engine status, key by key; a status that is not
    a key of the map translates to the empty status. *)
Lemma go_index_runStatusMap (s : flows.RunStatus) :
  (s = flows.RunStatusActive ∧ go_index runStatusMap s = RunStatusActive)
  ∨ (s = flows.RunStatusWaiting ∧ go_index runStatusMap s = RunStatusWaiting)
  ∨ (s = flows.RunStatusCompleted ∧ go_index runStatusMap s = RunStatusCompleted)
  ∨ (s = flows.RunStatusExpired ∧ go_index runStatusMap s = RunStatusExpired)
  ∨ (s = flows.RunStatusFailed ∧ go_index runStatusMap s = RunStatusFailed)
  ∨ (s ≠ flows.RunStatusActive ∧ s ≠ flows.RunStatusWaiting
     ∧ go_index runStatusMap s = "").
Proof.
  destruct (decide (s = flows.RunStatusActive)) as [->|Ha]; [by left|].
  destruct (decide (s = flows.RunStatusWaiting)) as [->|Hw]; [by right; left|].
  destruct (decide (s = flows.RunStatusCompleted)) as [->|Hc]; [by do 2 right; left|].
  destruct (decide (s = flows.RunStatusExpired)) as [->|Hx]; [by do 3 right; left|].
  destruct (decide (s = flows.RunStatusFailed)) as [->|Hf]; [by do 4 right; left|].
  do 5 right. repeat split; [done..|].
  unfold go_index, runStatusMap.
  rewrite !lookup_insert_ne by done. by rewrite lookup_singleton_ne.
Qed.

(** newRun fails only when the flow of the run cannot be resolved. *)
Lemma newRun_returns oa session fr flowID :
  FlowIDForUUID oa (flows.Run.FlowReferenceUUID fr) = inr flowID →
  ∃ run, newRun oa session fr = inr run.
Proof.
  intros Hflow. unfold newRun. rewrite Hflow.
  destruct (bool_decide _ && bool_decide _); eauto.
Qed.

(** The columns newRun derives from the engine status. *)
Lemma newRun_status oa session fr run :
  newRun oa session fr = inr run →
  FlowRun.Status (FlowRun.r run) = go_index runStatusMap (flows.Run.Status fr)
  ∧ FlowRun.IsActive (FlowRun.r run)
    = bool_decide (flows.Run.Status fr = flows.RunStatusActive
                   ∨ flows.Run.Status fr = flows.RunStatusWaiting)
  ∧ FlowRun.ExitType (FlowRun.r run)
    = (if FlowRun.IsActive (FlowRun.r run) then ""
       else go_index runStatusToExitType (FlowRun.Status (FlowRun.r run))).
Proof.
  unfold newRun. destruct (FlowIDForUUID _ _); [done|].
  destruct (decide (flows.Run.Status fr = flows.RunStatusActive)) as [Ea|Na];
    destruct (decide (flows.Run.Status fr = flows.RunStatusWaiting)) as [Ew|Nw];
    rewrite ?(bool_decide_eq_true_2 _ Na), ?(bool_decide_eq_true_2 _ Nw),
      ?(bool_decide_eq_false_2 (_ ≠ flows.RunStatusActive)),
      ?(bool_decide_eq_false_2 (_ ≠ flows.RunStatusWaiting)) by tauto;
    simpl; intros [= <-]; simpl; repeat split;
    symmetry; try (apply bool_decide_eq_true_2; tauto);
    apply bool_decide_eq_false_2; tauto.
Qed.

(** C4: in a run record built by newRun, is_active holds exactly when the
    persisted status is Active or Waiting, and exit_type is the one derived
    from the persisted status: I for Interrupted, C for Completed, E for
    Expired, F for Failed, and null (the empty [null.String]) for Active
    and Waiting. *)
Theorem newRun_is_active_exit_type oa session fr run :
  newRun oa session fr = inr run →
  (FlowRun.IsActive (FlowRun.r run) = true
   ↔ FlowRun.Status (FlowRun.r run) = RunStatusActive
     ∨ FlowRun.Status (FlowRun.r run) = RunStatusWaiting)
  ∧ FlowRun.ExitType (FlowRun.r run) = exitTypeOfStatus_spec (FlowRun.Status (FlowRun.r run))
  ∧ (FlowRun.Status (FlowRun.r run) = RunStatusInterrupted → FlowRun.ExitType (FlowRun.r run) = "I")
  ∧ (FlowRun.Status (FlowRun.r run) = RunStatusCompleted → FlowRun.ExitType (FlowRun.r run) = "C")
  ∧ (FlowRun.Status (FlowRun.r run) = RunStatusExpired → FlowRun.ExitType (FlowRun.r run) = "E")
  ∧ (FlowRun.Status (FlowRun.r run) = RunStatusFailed → FlowRun.ExitType (FlowRun.r run) = "F")
  ∧ (FlowRun.Status (FlowRun.r run) = RunStatusActive → FlowRun.ExitType (FlowRun.r run) = "")
  ∧ (FlowRun.Status (FlowRun.r run) = RunStatusWaiting → FlowRun.ExitType (FlowRun.r run) = "").
Proof.
  intros Hrun. destruct (newRun_status _ _ _ _ Hrun) as (Hst & Hact & Hexit).
  assert (Hspec : FlowRun.ExitType (FlowRun.r run)
                  = exitTypeOfStatus_spec (FlowRun.Status (FlowRun.r run))
                  ∧ (FlowRun.IsActive (FlowRun.r run) = true
                     ↔ FlowRun.Status (FlowRun.r run) = RunStatusActive
                       ∨ FlowRun.Status (FlowRun.r run) = RunStatusWaiting)).
  { rewrite Hexit, Hact, Hst.
    destruct (go_index_runStatusMap (flows.Run.Status fr))
      as [[-> ->]|[[-> ->]|[[-> ->]|[[-> ->]|[[-> ->]|(Na & Nw & ->)]]]]];
      try (split; [by vm_compute | vm_compute; split; [done | intros [?|?]; done]]);
      try (split; [by vm_compute | vm_compute; split; [tauto | done]]).
    rewrite bool_decide_eq_false_2 by tauto.
    split; [by vm_compute | split; [done | intros [?|?]; done]]. }
  destruct Hspec as [Hs Hiff].
  split; [done|]. split; [done|].
  rewrite Hs. repeat split; intros ->; by vm_compute.
Qed.

(** C5: the translation of engine run statuses maps Active to A, Waiting to
    W, Completed to C, Expired to X and Failed to F, and newRun produces
    the status Interrupted (I) for no engine status. *)
Theorem runStatusMap_translation :
  go_index runStatusMap flows.RunStatusActive = "A"
  ∧ go_index runStatusMap flows.RunStatusWaiting = "W"
  ∧ go_index runStatusMap flows.RunStatusCompleted = "C"
  ∧ go_index runStatusMap flows.RunStatusExpired = "X"
  ∧ go_index runStatusMap flows.RunStatusFailed = "F"
  ∧ (∀ engineStatus : flows.RunStatus, go_index runStatusMap engineStatus ≠ "I")
  ∧ (∀ oa session fr run,
       newRun oa session fr = inr run →
       FlowRun.Status (FlowRun.r run) = go_index runStatusMap (flows.Run.Status fr)
       ∧ FlowRun.Status (FlowRun.r run) ≠ "I").
Proof.
  assert (Hno : ∀ s : flows.RunStatus, go_index runStatusMap s ≠ "I").
  { intros s.
    destruct (go_index_runStatusMap s)
      as [[_ ->]|[[_ ->]|[[_ ->]|[[_ ->]|[[_ ->]|(_ & _ & ->)]]]]]; done. }
  do 5 (split; [done|]). split; [exact Hno|].
  intros oa session fr run Hrun.
  apply newRun_status in Hrun as [Hst _].
  split; [done|]. rewrite Hst. apply Hno.
Qed.

Lemma msgReceived_true (evts : list flows.Event.t) :
  msgReceived evts = true
  ↔ ∃ e, e ∈ evts ∧ flows.Event.Type_ e = events.TypeMsgReceived.
Proof.
  induction evts as [|e evts IH]; simpl.
  - split; [done | intros (e & He & _); by apply elem_of_nil in He].
  - case_bool_decide as Hty.
    + split; [|done]. intros _. exists e. split; [left | done].
    + rewrite IH. split.
      * intros (e' & He' & Hty'). exists e'. split; [by right | done].
      * intros (e' & He' & Hty'). apply elem_of_cons in He' as [->|He']; [done|].
        by exists e'.
Qed.

(** C6: a run record built by newRun has responded set exactly when the
    engine run's events contain an event of the inbound message type, and
    has a parent UUID exactly when the engine run has a parent, whose UUID
    it then is. *)
Theorem newRun_responded_parent oa session fr run :
  newRun oa session fr = inr run →
  (FlowRun.Responded (FlowRun.r run) = true
   ↔ ∃ e, e ∈ flows.Run.Events fr ∧ flows.Event.Type_ e = events.TypeMsgReceived)
  ∧ (is_Some (FlowRun.ParentUUID (FlowRun.r run)) ↔ is_Some (flows.Run.Parent fr))
  ∧ FlowRun.ParentUUID (FlowRun.r run) = flows.Run.Parent fr.
Proof.
  unfold newRun. destruct (FlowIDForUUID _ _); [done|].
  destruct (bool_decide _ && bool_decide _); intros [= <-]; simpl;
    (split; [apply msgReceived_true|]);
    by destruct (flows.Run.Parent fr).
Qed.

(** C7: for an engine run whose path is not empty, the run record built by
    newRun has as current_node_uuid the node UUID of the last step of the
    copied path, which is the node of the last step of the engine's
    path. *)
Theorem newRun_current_node oa session fr run :
  flows.Run.Path fr ≠ [] →
  newRun oa session fr = inr run →
  ∃ step p,
    last (FlowRun.Path (FlowRun.r run)) = Some step
    ∧ last (flows.Run.Path fr) = Some p
    ∧ Step.NodeUUID step = flows.Step.NodeUUID p
    ∧ FlowRun.CurrentNodeUUID (FlowRun.r run) = Step.NodeUUID step.
Proof.
  intros Hpath. unfold newRun. destruct (FlowIDForUUID _ _); [done|].
  destruct (last (flows.Run.Path fr)) as [p|] eqn:Hlast;
    [|by apply last_None in Hlast].
  set (copy := fun p0 : flows.Step.t => Step.mk _ _ _ _).
  assert (Hcopy : last (copy <$> flows.Run.Path fr) = Some (copy p))
    by (by rewrite fmap_last, Hlast).
  assert (Hlen : (0 < length (copy <$> flows.Run.Path fr))%nat).
  { rewrite length_fmap. destruct (flows.Run.Path fr); [done | simpl; lia]. }
  destruct (bool_decide _ && bool_decide _); intros [= <-]; simpl;
    exists (copy p), p;
    rewrite (bool_decide_eq_true_2 _ Hlen), Nat.sub_1_r, <- last_lookup, Hcopy;
    done.
Qed.

End NewRun.

(** The legacy pair of the record newRun builds for Bob's completed run. *)
Lemma newRun_is_active_exit_type_witness :
  ∃ run, newRun testAssets bobSession bobEngineRun = inr run
    ∧ (FlowRun.IsActive (FlowRun.r run) = true
       ↔ FlowRun.Status (FlowRun.r run) = RunStatusActive
         ∨ FlowRun.Status (FlowRun.r run) = RunStatusWaiting)
    ∧ FlowRun.ExitType (FlowRun.r run) = exitTypeOfStatus_spec (FlowRun.Status (FlowRun.r run)).
Proof.
  eexists. split; [reflexivity|].
  destruct (newRun_is_active_exit_type testAssets bobSession bobEngineRun _ eq_refl)
    as (Hactive & Hexit & _).
  exact (conj Hactive Hexit).
Defined.

(** Bob's completed run is not persisted as interrupted. *)
Lemma runStatusMap_translation_witness :
  ∃ run, newRun testAssets bobSession bobEngineRun = inr run
    ∧ FlowRun.Status (FlowRun.r run) ≠ "I".
Proof.
  eexists. split; [reflexivity|].
  destruct runStatusMap_translation as (_ & _ & _ & _ & _ & _ & Hrun).
  exact (proj2 (Hrun testAssets bobSession bobEngineRun _ eq_refl)).
Defined.

(** Bob's run received a message and has the parent run-0. *)
Lemma newRun_responded_parent_witness :
  ∃ run, newRun testAssets bobSession bobEngineRun = inr run
    ∧ (FlowRun.Responded (FlowRun.r run) = true
       ↔ ∃ e, e ∈ flows.Run.Events bobEngineRun
              ∧ flows.Event.Type_ e = events.TypeMsgReceived)
    ∧ FlowRun.ParentUUID (FlowRun.r run) = Some "run-0".
Proof.
  eexists. split; [reflexivity|].
  destruct (newRun_responded_parent testAssets bobSession bobEngineRun _ eq_refl)
    as (Hresponded & _ & Hparent).
  exact (conj Hresponded Hparent).
Defined.

(** The current node of Bob's run is the node of its second step. *)
Lemma newRun_current_node_witness :
  flows.Run.Path bobEngineRun ≠ []
  ∧ ∃ run, newRun testAssets bobSession bobEngineRun = inr run
      ∧ ∃ step, last (FlowRun.Path (FlowRun.r run)) = Some step
          ∧ FlowRun.CurrentNodeUUID (FlowRun.r run) = Step.NodeUUID step.
Proof.
  assert (Hpath : flows.Run.Path bobEngineRun ≠ []) by (simpl; discriminate).
  split; [exact Hpath|].
  eexists. split; [reflexivity|].
  destruct (newRun_current_node testAssets bobSession bobEngineRun _ Hpath eq_refl)
    as (step & p & Hlast & _ & _ & Hnode).
  exists step. exact (conj Hlast Hnode).
Defined.

(** * Properties of the database operations *)

Section Database.

Implicit Types (drv : Driver) (now : Time) (db tx : DB).

(** A row after an UPDATE. *)
Lemma sql_update_lookup {Row : Type} (cond : Z → Row → bool) (set : Row → Row)
    (table : gmap Z Row) (id : Z) :
  sql_update cond set table !! id
  = (fun row => if cond id row then set row else row) <$> table !! id.
Proof.
  unfold sql_update. rewrite map_lookup_imap. by destruct (table !! id).
Qed.

Lemma sql_any_true (x : Z) (array : list Z) : x ∈ array → sql_any x array = true.
Proof. intros Hin. by apply bool_decide_eq_true_2. Qed.

(** What a call that returns nil has done: nothing on an empty run-id set,
    and otherwise both statements, the second one only when there are
    session ids. *)
Lemma ExpireRunsAndSessions_nil drv now db runIDs sessionIDs db' :
  ExpireRunsAndSessions drv now db runIDs sessionIDs = (db', None) →
  (runIDs = [] ∧ db' = db)
  ∨ (runIDs ≠ []
     ∧ db' = (if bool_decide (0 < length sessionIDs)%nat
              then expireSessionsSQL sessionIDs now (expireRunsSQL runIDs now db)
              else expireRunsSQL runIDs now db)).
Proof.
  unfold ExpireRunsAndSessions, BeginTxx, Exec, Commit, Rollback.
  case_bool_decide as Hlen.
  - intros [= <-]. left. split; [by apply nil_length_inv | done].
  - intros Hcall. right. split; [by intros -> |].
    destruct (begin_err drv); [done|].
    destruct (exec_err drv "expiring runs"); [done|].
    case_bool_decide.
    + destruct (exec_err drv "expiring sessions"); [done|].
      destruct (commit_err drv); by simplify_eq.
    + destruct (commit_err drv); by simplify_eq.
Qed.

(** A call that returns an error has changed nothing. *)
Lemma ExpireRunsAndSessions_error drv now db runIDs sessionIDs db' err :
  ExpireRunsAndSessions drv now db runIDs sessionIDs = (db', Some err) → db' = db.
Proof.
  unfold ExpireRunsAndSessions, BeginTxx, Exec, Commit, Rollback.
  case_bool_decide; [done|].
  destruct (begin_err drv); [by intros [= <-]|].
  destruct (exec_err drv "expiring runs"); [by intros [= <-]|].
  case_bool_decide.
  - destruct (exec_err drv "expiring sessions"); [by intros [= <-]|].
    destruct (commit_err drv); [by intros [= <-] | done].
  - destruct (commit_err drv); [by intros [= <-] | done].
Qed.

(** The run rows after a call that returns nil on a non-empty run-id set:
    every passed run is rewritten by the SET clause of [expireRunsSQL],
    which stores the status E. *)
Lemma ExpireRunsAndSessions_runs drv now db runIDs sessionIDs db' id row :
  ExpireRunsAndSessions drv now db runIDs sessionIDs = (db', None) →
  id ∈ runIDs →
  flows_flowrun db !! id = Some row →
  flows_flowrun db' !! id = Some (expireRun now row)
  ∧ FlowRun.Status (expireRun now row) = "E"
  ∧ FlowRun.ExitedOn (expireRun now row) = Some now
  ∧ FlowRun.ExitType (expireRun now row) = "E"
  ∧ FlowRun.IsActive (expireRun now row) = false.
Proof.
  intros Hcall Hin Hrow.
  apply ExpireRunsAndSessions_nil in Hcall as [[-> _]|[_ ->]];
    [by apply elem_of_nil in Hin|].
  split; [|done].
  case_bool_decide; unfold expireSessionsSQL, expireRunsSQL; cbn [flows_flowrun];
    by rewrite sql_update_lookup, Hrow, (sql_any_true _ _ Hin).
Qed.

(** C1, at the run of the second session of the interruption tests: the
    call returns nil and leaves the run with exited_on set to now,
    exit_type E and is_active false, but with the status E, which is not
    the Expired status X of the run status vocabulary (nor any other status
    of it). *)
Theorem ExpireRunsAndSessions_run_status_E :
  ∃ db' row,
    ExpireRunsAndSessions okDriver 900%Z contactsTestDB [2%Z] [2%Z] = (db', None)
    ∧ flows_flowrun db' !! 2%Z = Some row
    ∧ FlowRun.Status row = "E"
    ∧ FlowRun.Status row ≠ RunStatusExpired
    ∧ (FlowRun.Status row ∉ [RunStatusActive; RunStatusWaiting; RunStatusCompleted;
                             RunStatusExpired; RunStatusInterrupted; RunStatusFailed])
    ∧ FlowRun.ExitedOn row = Some 900%Z
    ∧ FlowRun.ExitType row = "E"
    ∧ FlowRun.IsActive row = false.
Proof.
  do 2 eexists. split; [reflexivity|]. split; [by vm_compute|].
  simpl. repeat split; try done.
  rewrite !elem_of_cons, elem_of_nil.
  by intros [?|[?|[?|[?|[?|[?|[]]]]]]].
Qed.

(** The session rows after a call that returns nil on a non-empty run-id
    set: every passed session is rewritten by the SET clause of
    [expireSessionsSQL]. *)
Lemma ExpireRunsAndSessions_sessions drv now db runIDs sessionIDs db' id s :
  runIDs ≠ [] →
  ExpireRunsAndSessions drv now db runIDs sessionIDs = (db', None) →
  id ∈ sessionIDs →
  flows_flowsession db !! id = Some s →
  flows_flowsession db' !! id = Some (expireSession now s).
Proof.
  intros Hruns Hcall Hin Hrow.
  apply ExpireRunsAndSessions_nil in Hcall as [[-> _]|[_ ->]]; [done|].
  rewrite bool_decide_eq_true_2
    by (destruct sessionIDs; [by apply elem_of_nil in Hin | simpl; lia]).
  unfold expireSessionsSQL, expireRunsSQL; cbn [flows_flowsession].
  by rewrite sql_update_lookup, Hrow, (sql_any_true _ _ Hin).
Qed.

(** C2, refuted as stated: with an empty run-id set the call returns nil
    and the passed session, which is waiting, is not expired: it keeps its
    status W, has no ended_on, and keeps its wait and its current flow. *)
Lemma ExpireRunsAndSessions_empty_runs_session_kept :
  ¬ (∀ drv now db runIDs sessionIDs db' id s,
       ExpireRunsAndSessions drv now db runIDs sessionIDs = (db', None) →
       id ∈ sessionIDs →
       flows_flowsession db !! id = Some s →
       ∃ s', flows_flowsession db' !! id = Some s'
             ∧ Session.Status s' = SessionStatusExpired
             ∧ Session.EndedOn s' = Some now
             ∧ Session.WaitStartedOn s' = None
             ∧ Session.WaitExpiresOn s' = None
             ∧ Session.Timeout s' = None
             ∧ Session.CurrentFlowID s' = None).
Proof.
  intros Hclaim.
  destruct (Hclaim okDriver 900%Z contactsTestDB [] [2%Z] contactsTestDB 2%Z
              (testSession 2%Z CathyID FlowTypeMessaging SessionStatusWaiting FavoritesID None))
    as (s' & Hrow & Hstatus & _).
  - reflexivity.
  - by apply list_elem_of_singleton.
  - by vm_compute.
  - assert (Hrow0 : flows_flowsession contactsTestDB !! 2%Z
                    = Some (testSession 2%Z CathyID FlowTypeMessaging SessionStatusWaiting
                                        FavoritesID None)) by (by vm_compute).
    rewrite Hrow0 in Hrow. by simplify_eq.
Qed.

(** C2, as amended: when the run-id set is not empty and the call returns
    nil, every session id of the passed session-id set has its row set to
    the status Expired, with ended_on now and with wait_started_on,
    wait_expires_on, timeout_on and current_flow_id null, its other columns
    being kept; when the run-id set is empty the call returns nil and no
    session row is changed. *)
Theorem ExpireRunsAndSessions_sessions_expired drv now db runIDs sessionIDs db' :
  ExpireRunsAndSessions drv now db runIDs sessionIDs = (db', None) →
  (runIDs ≠ [] →
   ∀ id s, id ∈ sessionIDs → flows_flowsession db !! id = Some s →
     ∃ s', flows_flowsession db' !! id = Some s'
           ∧ s' = expireSession now s
           ∧ Session.Status s' = SessionStatusExpired
           ∧ Session.EndedOn s' = Some now
           ∧ Session.WaitStartedOn s' = None
           ∧ Session.WaitExpiresOn s' = None
           ∧ Session.Timeout s' = None
           ∧ Session.CurrentFlowID s' = None)
  ∧ (runIDs = [] → flows_flowsession db' = flows_flowsession db).
Proof.
  intros Hcall. split.
  - intros Hruns id s Hin Hrow. exists (expireSession now s).
    split; [by eapply ExpireRunsAndSessions_sessions|]. done.
  - intros ->. by apply ExpireRunsAndSessions_nil in Hcall as [[_ ->]|[? _]].
Qed.

(** Expiring the run and the session of Cathy's waiting session. *)
Lemma ExpireRunsAndSessions_sessions_expired_witness :
  ∃ db', ExpireRunsAndSessions okDriver 900%Z contactsTestDB [2%Z] [2%Z] = (db', None)
    ∧ ∃ s', flows_flowsession db' !! 2%Z = Some s'
        ∧ Session.Status s' = SessionStatusExpired
        ∧ Session.EndedOn s' = Some 900%Z.
Proof.
  eexists. split; [reflexivity|].
  destruct (ExpireRunsAndSessions_sessions_expired okDriver 900%Z contactsTestDB
              [2%Z] [2%Z] _ eq_refl) as [Hexpired _].
  destruct (Hexpired ltac:(discriminate) 2%Z
              (testSession 2%Z CathyID FlowTypeMessaging SessionStatusWaiting FavoritesID None))
    as (s' & Hrow & _ & Hstatus & Hended & _).
  - apply list_elem_of_singleton. reflexivity.
  - vm_compute. reflexivity.
  - exists s'. exact (conj Hrow (conj Hstatus Hended)).
Defined.

(** C9: with an empty input set, the expire operation (an empty run-id set,
    whatever the session ids) and each of the four interrupt operations
    return nil and leave the database, hence every session and run row, as
    it was, whatever the driver would have answered. *)
Theorem empty_input_noop drv now db (sessionIDs : list SessionID) (sessionType : FlowType) :
  ExpireRunsAndSessions drv now db [] sessionIDs = (db, None)
  ∧ InterruptSessionsForContacts drv now db [] = (db, None)
  ∧ InterruptSessionsOfTypeForContacts drv now db [] sessionType = (db, None)
  ∧ InterruptSessionsForChannels drv now db [] = (db, None)
  ∧ InterruptSessionsForFlows drv now db [] = (db, None).
Proof. repeat split. Qed.

(** C10: when the query itself does not fail and no run with the given id
    has the status W, RunExpiration returns a nil expiration and a nil
    error; and whenever it returns an expiration, the run with that id has
    the status W and that expiration is its expires_on. *)
Theorem RunExpiration_nil_unless_waiting drv db (runID : FlowRunID) :
  (query_err drv = None →
   (∀ row, flows_flowrun db !! runID = Some row → FlowRun.Status row ≠ RunStatusWaiting) →
   RunExpiration drv db runID = inr None)
  ∧ (∀ expiration,
       RunExpiration drv db runID = inr (Some expiration) →
       ∃ row, flows_flowrun db !! runID = Some row
              ∧ FlowRun.Status row = RunStatusWaiting
              ∧ FlowRun.ExpiresOn row = Some expiration).
Proof.
  unfold RunExpiration, selectRunExpiration. split.
  - intros -> Hnone. destruct (flows_flowrun db !! runID) as [row|]; [|done].
    by rewrite bool_decide_eq_false_2 by (by apply Hnone).
  - intros expiration.
    destruct (query_err drv) as [err|].
    { by case_bool_decide. }
    destruct (flows_flowrun db !! runID) as [row|]; [|done].
    case_bool_decide as Hw; [|done].
    destruct (FlowRun.ExpiresOn row) as [t|] eqn:Hexp; [|done].
    intros [= <-]. by exists row.
Qed.

(** The completed run 1 has no expiration to return, the waiting run 2
    has. *)
Lemma RunExpiration_nil_unless_waiting_witness :
  RunExpiration okDriver contactsTestDB 1%Z = inr None
  ∧ ∃ row, flows_flowrun contactsTestDB !! 2%Z = Some row
           ∧ FlowRun.Status row = RunStatusWaiting
           ∧ FlowRun.ExpiresOn row = Some 500%Z.
Proof.
  split.
  - apply (proj1 (RunExpiration_nil_unless_waiting okDriver contactsTestDB 1%Z)).
    + reflexivity.
    + intros row. vm_compute. intros [= <-]. discriminate.
  - apply (proj2 (RunExpiration_nil_unless_waiting okDriver contactsTestDB 2%Z)).
    vm_compute. reflexivity.
Defined.

(** An interruption either fails and changes nothing, or has run both of
    its statements. *)
Lemma interruptSessions_result drv now db selector db' err :
  interruptSessions drv now db selector = (db', err) →
  db' = db
  ∨ db' = interruptRunsSQL (inMatchedSet selector (flows_flowsession db)) now
            (interruptSessionsSQL selector now db).
Proof.
  unfold interruptSessions, Exec.
  destruct (exec_err drv "interrupting sessions"); [intros [= <- _]; by left|].
  destruct (exec_err drv "interrupting runs"); intros [= <- _]; [by left | by right].
Qed.

Lemma interrupt_result drv now db op db' err :
  interrupt drv now db op = (db', err) →
  db' = db
  ∨ ∃ selector,
      db' = interruptRunsSQL (inMatchedSet selector (flows_flowsession db)) now
              (interruptSessionsSQL selector now db).
Proof.
  destruct op as [ids|ids ty|ids|ids]; simpl;
    unfold InterruptSessionsForContacts, InterruptSessionsOfTypeForContacts,
      InterruptSessionsForChannels, InterruptSessionsForFlows;
    (case_bool_decide; [intros [= <- _]; by left|]);
    intros [-> | ->]%interruptSessions_result; eauto.
Qed.

(** C3: for each of the four interruption operations, a session that is
    not waiting, a completed one in particular, keeps its row (status and
    all columns) even when the selector matches it; a session that the
    call changes was waiting and becomes interrupted; and the runs of a
    session that is not waiting keep their rows, so their statuses. *)
Theorem interruption_only_waiting drv now db op db' err :
  interrupt drv now db op = (db', err) →
  (∀ id s, flows_flowsession db !! id = Some s →
     Session.Status s ≠ SessionStatusWaiting →
     flows_flowsession db' !! id = Some s)
  ∧ (∀ id s, flows_flowsession db !! id = Some s →
       flows_flowsession db' !! id ≠ Some s →
       Session.Status s = SessionStatusWaiting
       ∧ flows_flowsession db' !! id = Some (interruptSession now s))
  ∧ (∀ runID fr s, flows_flowrun db !! runID = Some fr →
       flows_flowsession db !! FlowRun.SessionID fr = Some s →
       Session.Status s ≠ SessionStatusWaiting →
       flows_flowrun db' !! runID = Some fr).
Proof.
  intros [-> | [selector ->]]%interrupt_result; [by repeat split|].
  unfold interruptRunsSQL, interruptSessionsSQL; cbn [flows_flowsession flows_flowrun].
  split; [|split].
  - intros id s Hrow Hstatus. rewrite sql_update_lookup, Hrow. simpl.
    unfold matchedSession. by rewrite bool_decide_eq_false_2.
  - intros id s Hrow. rewrite sql_update_lookup, Hrow. simpl.
    unfold matchedSession. case_bool_decide as Hw; [|done].
    destruct (selector s); simpl; [done|]. by intros [].
  - intros runID fr s Hrow Hsession Hstatus. rewrite sql_update_lookup, Hrow. simpl.
    unfold inMatchedSet, matchedSession. rewrite Hsession. simpl.
    by rewrite bool_decide_eq_false_2.
Qed.

(** Interrupting Cathy and Bob keeps Cathy's completed session and its
    run. *)
Lemma interruption_only_waiting_witness :
  ∃ db', interrupt okDriver 900%Z contactsTestDB (ForContacts [CathyID; BobID]) = (db', None)
    ∧ flows_flowsession db' !! 1%Z
      = Some (testSession 1%Z CathyID FlowTypeMessaging SessionStatusCompleted FavoritesID None)
    ∧ flows_flowrun db' !! 1%Z
      = Some (testRun 1%Z 1%Z CathyID RunStatusCompleted FavoritesID).
Proof.
  eexists. split; [reflexivity|].
  destruct (interruption_only_waiting okDriver 900%Z contactsTestDB
              (ForContacts [CathyID; BobID]) _ _ eq_refl) as (Hsession & _ & Hrun).
  split.
  - apply Hsession; [vm_compute; reflexivity | discriminate].
  - apply (Hrun 1%Z _ (testSession 1%Z CathyID FlowTypeMessaging SessionStatusCompleted
                                    FavoritesID None));
      [vm_compute; reflexivity | vm_compute; reflexivity | discriminate].
Defined.

End Database.

(** * Properties of Session.Update *)

Section SessionUpdate.

Implicit Types (oa : OrgAssets.t) (hook : PreCommitHook) (session : Session.t) (db tx : DB).

Lemma recomputeSession_responded oa now session fs session1 :
  recomputeSession oa now session fs = inr session1 →
  Session.Responded session1 = Session.Responded session
  ∧ Session.ID session1 = Session.ID session.
Proof.
  unfold recomputeSession. destruct (flows.Session.Status fs).
  - destruct (waitingRun fs); [|done]. destruct (flows.Session.Wait fs); [|done].
    destruct (FlowIDForUUID _ _); [done|]. by intros [= <-].
  - by intros [= <-].
  - by intros [= <-].
Qed.

Lemma handleEvent_responded session e :
  Session.Responded session = true → Session.Responded (handleEvent session e) = true.
Proof. unfold handleEvent. by case_bool_decide. Qed.

Lemma applyEvents_responded session sprint :
  Session.Responded session = true → Session.Responded (applyEvents session sprint) = true.
Proof.
  unfold applyEvents. revert session.
  induction (flows.Sprint.Events sprint) as [|e evts IH]; intros session Hresponded; simpl.
  - done.
  - by apply IH, handleEvent_responded.
Qed.

Lemma writeRuns_sessions oa now session tx runs tx' :
  writeRuns oa now session tx runs = inr tx' →
  flows_flowsession tx' = flows_flowsession tx.
Proof.
  revert tx. induction runs as [|fr runs IH]; intros tx; simpl.
  - by intros [= <-].
  - destruct (writeRun oa now session tx fr) as [|tx1] eqn:Hone; [done|].
    intros Hrest. rewrite (IH _ Hrest).
    unfold writeRun in Hone. destruct (newRun oa session fr); [done|].
    by simplify_eq.
Qed.

(** One [Update] keeps the flag of the session in memory, whatever it
    returns. *)
Lemma Update_responded drv now tx oa session fs sprint hook :
  Session.Responded session = true →
  Session.Responded (Update drv now tx oa session fs sprint hook).1.1 = true.
Proof.
  intros Hresponded. unfold Update.
  destruct (terminalSessionStatus _); [done|].
  destruct (recomputeSession oa now session fs) as [|session1] eqn:Hre; [done|].
  apply recomputeSession_responded in Hre as [Hre _].
  assert (Session.Responded session1 = true) as H1 by congruence.
  destruct (writeRuns _ _ _ _ _); [done|].
  destruct (Exec drv "updating session" _ _); [done|].
  pose proof (applyEvents_responded _ sprint H1).
  destruct (Exec drv "applying events" _ _); [done|].
  by destruct (hook _ _ _).
Qed.

(** One [Update] keeps the flag of every session row, whatever it
    returns. *)
Lemma Update_row_responded drv now tx oa session fs sprint hook id row :
  flows_flowsession tx !! id = Some row →
  Session.Responded row = true →
  ∃ row', flows_flowsession (Update drv now tx oa session fs sprint hook).1.2 !! id = Some row'
          ∧ Session.Responded row' = true.
Proof.
  intros Hrow Hresponded. unfold Update, Exec.
  destruct (terminalSessionStatus _); [by exists row|].
  destruct (recomputeSession oa now session fs) as [|session1]; [by exists row|].
  destruct (writeRuns _ _ _ _ _) as [|tx1] eqn:Hruns; [by exists row|].
  apply writeRuns_sessions in Hruns.
  destruct (exec_err drv "updating session"); [by exists row|].
  destruct (exec_err drv "applying events"); [by exists row|].
  destruct (hook _ _ _); [by exists row|].
  unfold markRespondedSQL, updateSessionSQL; cbn [fst snd flows_flowsession].
  rewrite !sql_update_lookup, Hruns, Hrow. simpl.
  eexists. split; [done|].
  by repeat (case_bool_decide || destruct (Session.Responded (applyEvents _ _)); simpl).
Qed.

(** C8: the responded flag of a session is sticky across Update calls:
    when it is true, it is still true after any sequence of sprints
    applied through [Update], on the session in memory and on every
    session row, whether the calls succeed or are rejected. *)
Theorem responded_sticky oa hook session db advances :
  (Session.Responded session = true →
   Session.Responded (updates oa hook session db advances).1 = true)
  ∧ (∀ id row,
       flows_flowsession db !! id = Some row →
       Session.Responded row = true →
       ∃ row', flows_flowsession (updates oa hook session db advances).2 !! id = Some row'
               ∧ Session.Responded row' = true).
Proof.
  revert session db. induction advances as [|a advances IH]; intros session db; simpl.
  - split; [done|]. intros id row Hrow Hresponded. by exists row.
  - pose proof (Update_responded (adv_drv a) (adv_now a) db oa session
                  (adv_session a) (adv_sprint a) hook) as Hmem.
    pose proof (Update_row_responded (adv_drv a) (adv_now a) db oa session
                  (adv_session a) (adv_sprint a) hook) as Hrows.
    destruct (Update _ _ _ _ _ _ _ _) as [[session' db'] err]. simpl in *.
    destruct (IH session' db') as [IHmem IHrows]. split.
    + intros Hresponded. by apply IHmem, Hmem.
    + intros id row Hrow Hresponded.
      destruct (Hrows id row Hrow Hresponded) as (row1 & Hrow1 & Hresponded1).
      by apply (IHrows id row1).
Qed.

(** Bob's session has responded after the answer no, and still has after
    two more advances, the second of which is rejected. *)
Lemma responded_sticky_witness :
  Session.Responded (updates testAssets noHook bobSession bobDB [bobAnswersNo]).1 = true
  ∧ Session.Responded
      (updates testAssets noHook
         (updates testAssets noHook bobSession bobDB [bobAnswersNo]).1
         (updates testAssets noHook bobSession bobDB [bobAnswersNo]).2
         [bobAnswersYes; bobAnswersNo]).1 = true.
Proof.
  assert (Hfirst : Session.Responded
                     (updates testAssets noHook bobSession bobDB [bobAnswersNo]).1 = true)
    by (vm_compute; reflexivity).
  split; [exact Hfirst|].
  exact (proj1 (responded_sticky testAssets noHook _ _ [bobAnswersYes; bobAnswersNo]) Hfirst).
Defined.

End SessionUpdate.

(** * The scenarios of the package's tests *)

(** [TestInterruptSessionsForContacts]: interrupting Cathy and Bob leaves
    Cathy's completed session and George's session as they were. *)
Example TestInterruptSessionsForContacts :
  let db' := (InterruptSessionsForContacts okDriver 900%Z contactsTestDB [CathyID; BobID]).1 in
  sessionAndRunStatus db' <$> [1%Z; 2%Z; 3%Z; 4%Z]
  = [Some ("C", "C"); Some ("I", "I"); Some ("I", "I"); Some ("W", "W")].
Proof. by vm_compute. Qed.

(** [TestInterruptSessionsOfTypeForContacts]: George's voice session is of
    the wrong type. *)
Example TestInterruptSessionsOfTypeForContacts :
  let db' := (InterruptSessionsOfTypeForContacts okDriver 900%Z typeTestDB
                [CathyID; BobID; GeorgeID] FlowTypeMessaging).1 in
  sessionAndRunStatus db' <$> [1%Z; 2%Z; 3%Z; 4%Z]
  = [Some ("C", "C"); Some ("I", "I"); Some ("I", "I"); Some ("W", "W")].
Proof. by vm_compute. Qed.

(** [TestInterruptSessionsForChannels]: George's connection is on another
    channel. *)
Example TestInterruptSessionsForChannels :
  let db' := (InterruptSessionsForChannels okDriver 900%Z (connectionsTestDB FavoritesID)
                [TwilioChannelID]).1 in
  sessionAndRunStatus db' <$> [1%Z; 2%Z; 3%Z; 4%Z]
  = [Some ("C", "C"); Some ("I", "I"); Some ("I", "I"); Some ("W", "W")].
Proof. by vm_compute. Qed.

(** [TestInterruptSessionsForFlows]: George's session is in another flow. *)
Example TestInterruptSessionsForFlows :
  let db' := (InterruptSessionsForFlows okDriver 900%Z (connectionsTestDB PickANumberID)
                [FavoritesID]).1 in
  sessionAndRunStatus db' <$> [1%Z; 2%Z; 3%Z; 4%Z]
  = [Some ("C", "C"); Some ("I", "I"); Some ("I", "I"); Some ("W", "W")].
Proof. by vm_compute. Qed.

(** The other columns of an interrupted session, as the tests check them. *)
Example TestInterruptSessions_columns :
  let db' := (InterruptSessionsForContacts okDriver 900%Z contactsTestDB [CathyID; BobID]).1 in
  (fun s => (Session.EndedOn s, Session.WaitStartedOn s, Session.WaitExpiresOn s,
             Session.Timeout s, Session.CurrentFlowID s))
    <$> flows_flowsession db' !! 2%Z
  = Some (Some 900%Z, None, None, None, None).
Proof. by vm_compute. Qed.

(** [TestSessionCreationAndUpdating], from the waiting session on: after
    the answer "no" the session waits again and has responded; after the
    answer "yes" it is completed, is in no flow, and has still
    responded. *)
Example TestSessionCreationAndUpdating :
  let after1 := updates testAssets noHook bobSession bobDB [bobAnswersNo] in
  let after2 := updates testAssets noHook after1.1 after1.2 [bobAnswersYes] in
  (Session.Status after1.1, Session.CurrentFlowID after1.1, Session.Responded after1.1)
  = ("W", Some FavoritesID, true)
  ∧ (Session.Status after2.1, Session.CurrentFlowID after2.1, Session.Responded after2.1,
     Session.EndedOn after2.1, Session.WaitStartedOn after2.1)
    = ("C", None, true, Some 300%Z, None)
  ∧ flows_flowsession after2.2 !! 7%Z = Some after2.1.
Proof. by vm_compute. Qed.

(** * Further properties of runs.go *)

Section Expiration.

Implicit Types (drv : Driver) (now : Time) (db tx : DB).

Lemma sql_update_is_Some {Row : Type} (cond : Z → Row → bool) (set : Row → Row)
    (table : gmap Z Row) (id : Z) :
  is_Some (sql_update cond set table !! id) ↔ is_Some (table !! id).
Proof. rewrite sql_update_lookup. apply fmap_is_Some. Qed.

Lemma sql_update_other {Row : Type} (cond : Z → Row → bool) (set : Row → Row)
    (table : gmap Z Row) (id : Z) :
  (∀ row, cond id row = false) →
  sql_update cond set table !! id = table !! id.
Proof.
  intros Hcond. rewrite sql_update_lookup.
  destruct (table !! id) as [row|]; simpl; [by rewrite Hcond | done].
Qed.

(** Two updates of the same rows, the second of which overrides the
    first. *)
Lemma sql_update_override {Row : Type} (cond : Z → bool) (set1 set2 : Row → Row)
    (table : gmap Z Row) :
  (∀ row, set2 (set1 row) = set2 row) →
  sql_update (fun id _ => cond id) set2 (sql_update (fun id _ => cond id) set1 table)
  = sql_update (fun id _ => cond id) set2 table.
Proof.
  intros Hset. apply map_eq. intros id. rewrite !sql_update_lookup.
  destruct (table !! id) as [row|]; simpl; [|done].
  destruct (cond id); by rewrite ?Hset.
Qed.

Lemma sql_any_false (x : Z) (array : list Z) : x ∉ array → sql_any x array = false.
Proof. intros Hin. by apply bool_decide_eq_false_2. Qed.

(** The database after any call: as it was, or with both statements run
    (the second changes nothing when there are no session ids). *)
Lemma ExpireRunsAndSessions_db drv now db runIDs sessionIDs :
  (ExpireRunsAndSessions drv now db runIDs sessionIDs).1 = db
  ∨ (ExpireRunsAndSessions drv now db runIDs sessionIDs).1
    = (if bool_decide (0 < length sessionIDs)%nat
       then expireSessionsSQL sessionIDs now (expireRunsSQL runIDs now db)
       else expireRunsSQL runIDs now db).
Proof.
  destruct (ExpireRunsAndSessions drv now db runIDs sessionIDs) as [db' [err|]] eqn:Hcall.
  - left. by apply ExpireRunsAndSessions_error in Hcall.
  - apply ExpireRunsAndSessions_nil in Hcall as [[_ ->]|[_ ->]]; [by left | by right].
Qed.

(** X1: ExpireRunsAndSessions returns an error exactly when the run-id set
    is not empty and the driver fails to begin the transaction, to execute
    the run statement, to execute the session statement (which is executed
    only when there are session ids) or to commit; and whenever it returns
    an error the database is as it was before the call. *)
Theorem ExpireRunsAndSessions_error_iff drv now db runIDs sessionIDs :
  (is_Some (ExpireRunsAndSessions drv now db runIDs sessionIDs).2
   ↔ runIDs ≠ []
     ∧ (is_Some (begin_err drv)
        ∨ is_Some (exec_err drv "expiring runs")
        ∨ (sessionIDs ≠ [] ∧ is_Some (exec_err drv "expiring sessions"))
        ∨ is_Some (commit_err drv)))
  ∧ (is_Some (ExpireRunsAndSessions drv now db runIDs sessionIDs).2 →
     (ExpireRunsAndSessions drv now db runIDs sessionIDs).1 = db).
Proof.
  split.
  - unfold ExpireRunsAndSessions, BeginTxx, Exec, Commit, Rollback.
    destruct runIDs as [|runID runIDs]; simpl.
    { split; [by intros [? [=]] | by intros [? _]]. }
    destruct (begin_err drv) as [e1|]; simpl; [split; eauto|].
    destruct (exec_err drv "expiring runs") as [e2|]; simpl; [split; eauto 6|].
    destruct sessionIDs as [|sessionID sessionIDs]; simpl.
    + destruct (commit_err drv) as [e4|]; simpl; [split; eauto 8|].
      split; [by intros [? [=]]|].
      intros (_ & [[? [=]]|[[? [=]]|[[? _]|[? [=]]]]]). done.
    + destruct (exec_err drv "expiring sessions") as [e3|]; simpl; [split; eauto 8|].
      destruct (commit_err drv) as [e4|]; simpl; [split; eauto 8|].
      split; [by intros [? [=]]|].
      by intros (_ & [[? [=]]|[[? [=]]|[[_ [? [=]]]|[? [=]]]]]).
  - intros [err Herr].
    destruct (ExpireRunsAndSessions drv now db runIDs sessionIDs) as [db' err'] eqn:Hcall.
    simpl in *. subst err'. by apply ExpireRunsAndSessions_error in Hcall.
Qed.

(** X2: whatever a call returns, it inserts and deletes no row, leaves the
    run rows whose id is not in the run-id set and the session rows whose
    id is not in the session-id set as they were, and does not touch the
    connections. *)
Theorem ExpireRunsAndSessions_frame drv now db runIDs sessionIDs :
  let db' := (ExpireRunsAndSessions drv now db runIDs sessionIDs).1 in
  (∀ id, id ∉ runIDs → flows_flowrun db' !! id = flows_flowrun db !! id)
  ∧ (∀ id, id ∉ sessionIDs → flows_flowsession db' !! id = flows_flowsession db !! id)
  ∧ (∀ id, is_Some (flows_flowrun db' !! id) ↔ is_Some (flows_flowrun db !! id))
  ∧ (∀ id, is_Some (flows_flowsession db' !! id) ↔ is_Some (flows_flowsession db !! id))
  ∧ channels_channelconnection db' = channels_channelconnection db.
Proof.
  simpl. destruct (ExpireRunsAndSessions_db drv now db runIDs sessionIDs) as [->| ->];
    [done|].
  case_bool_decide; unfold expireSessionsSQL, expireRunsSQL;
    cbn [flows_flowrun flows_flowsession channels_channelconnection];
    repeat split;
    try (intros id Hid; apply sql_update_other; intros _; by apply sql_any_false);
    try (apply sql_update_is_Some); done.
Qed.

(** X3: the run statement does not look at the rows it rewrites: on a call
    that returns nil, a passed run is rewritten whatever its status, also
    one that had already exited: its exited_on and modified_on become now,
    its exit_type E and is_active false, whatever they were, while its
    uuid, session, contact, flow, organization, parent, start, connection,
    creation and expiration times, responded flag, path, results and
    current node are kept. *)
Theorem ExpireRunsAndSessions_rewrites_any_run drv now db runIDs sessionIDs db' id row :
  ExpireRunsAndSessions drv now db runIDs sessionIDs = (db', None) →
  id ∈ runIDs →
  flows_flowrun db !! id = Some row →
  ∃ row', flows_flowrun db' !! id = Some row'
    ∧ FlowRun.ExitedOn row' = Some now
    ∧ FlowRun.ModifiedOn row' = now
    ∧ FlowRun.ExitType row' = ExitExpired
    ∧ FlowRun.IsActive row' = false
    ∧ FlowRun.ID row' = FlowRun.ID row
    ∧ FlowRun.UUID row' = FlowRun.UUID row
    ∧ FlowRun.SessionID row' = FlowRun.SessionID row
    ∧ FlowRun.ContactID row' = FlowRun.ContactID row
    ∧ FlowRun.FlowID row' = FlowRun.FlowID row
    ∧ FlowRun.OrgID row' = FlowRun.OrgID row
    ∧ FlowRun.ParentUUID row' = FlowRun.ParentUUID row
    ∧ FlowRun.StartID row' = FlowRun.StartID row
    ∧ FlowRun.ConnectionID row' = FlowRun.ConnectionID row
    ∧ FlowRun.CreatedOn row' = FlowRun.CreatedOn row
    ∧ FlowRun.ExpiresOn row' = FlowRun.ExpiresOn row
    ∧ FlowRun.Responded row' = FlowRun.Responded row
    ∧ FlowRun.Path row' = FlowRun.Path row
    ∧ FlowRun.Results row' = FlowRun.Results row
    ∧ FlowRun.CurrentNodeUUID row' = FlowRun.CurrentNodeUUID row.
Proof.
  intros Hcall Hin Hrow. exists (expireRun now row). split; [|by repeat split].
  apply ExpireRunsAndSessions_nil in Hcall as [[-> _]|[_ ->]];
    [by apply elem_of_nil in Hin|].
  case_bool_decide; unfold expireSessionsSQL, expireRunsSQL; cbn [flows_flowrun];
    by rewrite sql_update_lookup, Hrow, (sql_any_true _ _ Hin).
Qed.

(** An already completed run of the test database is expired all the
    same. *)
Lemma ExpireRunsAndSessions_rewrites_any_run_witness :
  ∃ db', ExpireRunsAndSessions okDriver 900%Z contactsTestDB [1%Z] [] = (db', None)
    ∧ ∃ row', flows_flowrun db' !! 1%Z = Some row'
        ∧ FlowRun.ExitedOn row' = Some 900%Z
        ∧ FlowRun.ExitType row' = ExitExpired.
Proof.
  eexists. split; [reflexivity|].
  destruct (ExpireRunsAndSessions_rewrites_any_run okDriver 900%Z contactsTestDB
              [1%Z] [] _ 1%Z (testRun 1%Z 1%Z CathyID RunStatusCompleted FavoritesID) eq_refl)
    as (row' & Hrow' & Hexited & _ & Hexit & _).
  - apply list_elem_of_singleton. reflexivity.
  - vm_compute. reflexivity.
  - exists row'. exact (conj Hrow' (conj Hexited Hexit)).
Defined.

(** X4: of two calls with the same ids that both return nil, the later one
    wins: the database they leave is the one a single call at the later
    time leaves; in particular a second call at the same time changes
    nothing. *)
Theorem ExpireRunsAndSessions_twice drv1 drv2 now1 now2 db runIDs sessionIDs db1 db2 :
  ExpireRunsAndSessions drv1 now1 db runIDs sessionIDs = (db1, None) →
  ExpireRunsAndSessions drv2 now2 db1 runIDs sessionIDs = (db2, None) →
  ExpireRunsAndSessions okDriver now2 db runIDs sessionIDs = (db2, None)
  ∧ (now1 = now2 → db2 = db1).
Proof.
  intros Hfirst Hsecond.
  assert (Hone : ExpireRunsAndSessions okDriver now2 db runIDs sessionIDs = (db2, None)).
  { apply ExpireRunsAndSessions_nil in Hfirst as [[-> ->]|[Hruns ->]].
    { by apply ExpireRunsAndSessions_nil in Hsecond as [[_ ->]|[? _]]. }
    apply ExpireRunsAndSessions_nil in Hsecond as [[? _]|[_ ->]]; [done|].
    unfold ExpireRunsAndSessions, BeginTxx, Exec, Commit. simpl.
    rewrite bool_decide_eq_false_2 by (by destruct runIDs).
    case_bool_decide; f_equal; unfold expireSessionsSQL, expireRunsSQL;
      cbn [flows_flowrun flows_flowsession channels_channelconnection]; f_equal;
      by rewrite (sql_update_override (fun id => sql_any id _)). }
  split; [done|]. intros <-.
  apply ExpireRunsAndSessions_nil in Hfirst as [[-> ->]|[Hruns Hdb1]].
  { by apply ExpireRunsAndSessions_nil in Hsecond as [[_ ->]|[? _]]. }
  apply ExpireRunsAndSessions_nil in Hone as [[? _]|[_ ->]]; [done|]. done.
Qed.

(** Expiring Cathy's waiting run and session at 900 and again at 950. *)
Lemma ExpireRunsAndSessions_twice_witness :
  ∃ db1 db2,
    ExpireRunsAndSessions okDriver 900%Z contactsTestDB [2%Z] [2%Z] = (db1, None)
    ∧ ExpireRunsAndSessions okDriver 950%Z db1 [2%Z] [2%Z] = (db2, None)
    ∧ ExpireRunsAndSessions okDriver 950%Z contactsTestDB [2%Z] [2%Z] = (db2, None).
Proof.
  do 2 eexists. split; [reflexivity|]. split; [reflexivity|].
  exact (proj1 (ExpireRunsAndSessions_twice okDriver okDriver 900%Z 950%Z contactsTestDB
                  [2%Z] [2%Z] _ _ eq_refl eq_refl)).
Defined.

(** X5: after a call that returns nil, RunExpiration returns a nil
    expiration and a nil error for every run id that was passed, whenever
    its query does not fail: an expired run no longer waits. *)
Theorem RunExpiration_after_expire drv now db runIDs sessionIDs db' drv' id :
  ExpireRunsAndSessions drv now db runIDs sessionIDs = (db', None) →
  id ∈ runIDs →
  query_err drv' = None →
  RunExpiration drv' db' id = inr None.
Proof.
  intros Hcall Hin Hquery.
  unfold RunExpiration, selectRunExpiration. rewrite Hquery.
  destruct (flows_flowrun db !! id) as [row|] eqn:Hrow.
  - destruct (ExpireRunsAndSessions_runs _ _ _ _ _ _ _ _ Hcall Hin Hrow) as (-> & _).
    done.
  - assert (flows_flowrun db' !! id = None) as ->; [|done].
    pose proof (ExpireRunsAndSessions_db drv now db runIDs sessionIDs) as Hdb.
    rewrite Hcall in Hdb. simpl in Hdb. destruct Hdb as [-> | ->]; [done|].
    case_bool_decide; unfold expireSessionsSQL, expireRunsSQL; cbn [flows_flowrun];
      by rewrite sql_update_lookup, Hrow.
Qed.

(** Cathy's waiting run has an expiration before it is expired and none
    after. *)
Lemma RunExpiration_after_expire_witness :
  RunExpiration okDriver contactsTestDB 2%Z = inr (Some 500%Z)
  ∧ ∃ db', ExpireRunsAndSessions okDriver 900%Z contactsTestDB [2%Z] [2%Z] = (db', None)
      ∧ RunExpiration okDriver db' 2%Z = inr None.
Proof.
  split; [vm_compute; reflexivity|].
  eexists. split; [reflexivity|].
  apply (RunExpiration_after_expire okDriver 900%Z contactsTestDB [2%Z] [2%Z] _ okDriver 2%Z eq_refl).
  - apply list_elem_of_singleton. reflexivity.
  - reflexivity.
Defined.

End Expiration.

Section RunRecords.

Implicit Types (drv : Driver) (now : Time) (db tx : DB)
  (oa : OrgAssets.t) (session : Session.t) (fr : flows.Run.t).

(** X6: for a run that waits and has an expiration, RunExpiration returns
    that expiration, whenever its query does not fail. *)
Theorem RunExpiration_waiting_run drv db (runID : FlowRunID) row expiration :
  query_err drv = None →
  flows_flowrun db !! runID = Some row →
  FlowRun.Status row = RunStatusWaiting →
  FlowRun.ExpiresOn row = Some expiration →
  RunExpiration drv db runID = inr (Some expiration).
Proof.
  intros Hquery Hrow Hstatus Hexpires.
  unfold RunExpiration, selectRunExpiration.
  by rewrite Hquery, Hrow, Hstatus, Hexpires.
Qed.

(** Cathy's waiting run expires at 500. *)
Lemma RunExpiration_waiting_run_witness :
  RunExpiration okDriver contactsTestDB 2%Z = inr (Some 500%Z).
Proof.
  apply (RunExpiration_waiting_run okDriver contactsTestDB 2%Z
           (testRun 2%Z 2%Z CathyID RunStatusWaiting FavoritesID) 500%Z);
    vm_compute; reflexivity.
Defined.

(** X7: RunExpiration never hands [sql.ErrNoRows] to its caller: an error
    it returns is a wrapped error whose cause is not [sql.ErrNoRows], and
    when the driver itself answers [sql.ErrNoRows] the result is a nil
    expiration and a nil error. *)
Theorem RunExpiration_no_ErrNoRows drv db (runID : FlowRunID) :
  (∀ err, RunExpiration drv db runID = inl err →
     ∃ cause, err = errors_Wrapf cause "unable to select expiration for run"
              ∧ cause ≠ sql_ErrNoRows)
  ∧ (query_err drv = Some sql_ErrNoRows → RunExpiration drv db runID = inr None).
Proof.
  unfold RunExpiration. split.
  - intros err. destruct (selectRunExpiration drv db runID) as [cause|]; [|done].
    case_bool_decide; [done|]. intros [= <-]. by exists cause.
  - intros Hquery. unfold selectRunExpiration. by rewrite Hquery.
Qed.

(** X8: newRun returns an error exactly when the flow of the engine run
    cannot be resolved, and the error then wraps the one of the lookup;
    otherwise it returns a record that carries the resolved flow id, the
    organization of the assets, the id of the session and the contact of
    the engine run, and that has no id, start or connection yet. *)
Theorem newRun_error_iff oa session fr :
  (∀ err, FlowIDForUUID oa (flows.Run.FlowReferenceUUID fr) = inl err →
     newRun oa session fr = inl (errors_Wrapf err "unable to load flow with uuid"))
  ∧ (∀ flowID, FlowIDForUUID oa (flows.Run.FlowReferenceUUID fr) = inr flowID →
       ∃ run, newRun oa session fr = inr run
         ∧ FlowRun.FlowID (FlowRun.r run) = flowID
         ∧ FlowRun.OrgID (FlowRun.r run) = OrgAssets.OrgID oa
         ∧ FlowRun.SessionID (FlowRun.r run) = Session.ID session
         ∧ FlowRun.ContactID (FlowRun.r run) = flows.Run.ContactID fr
         ∧ FlowRun.UUID (FlowRun.r run) = flows.Run.UUID fr
         ∧ FlowRun.ID (FlowRun.r run) = NilFlowRunID
         ∧ FlowRun.StartID (FlowRun.r run) = NilStartID
         ∧ FlowRun.ConnectionID (FlowRun.r run) = None
         ∧ FlowRun.run run = Some fr).
Proof.
  unfold newRun. split.
  - by intros err ->.
  - intros flowID ->.
    destruct (bool_decide _ && bool_decide _); eexists; (split; [done|]); done.
Qed.

(** X9: for an engine run whose path is empty, newRun builds a record with
    an empty path and a null current_node_uuid. *)
Theorem newRun_empty_path oa session fr run :
  flows.Run.Path fr = [] →
  newRun oa session fr = inr run →
  FlowRun.Path (FlowRun.r run) = [] ∧ FlowRun.CurrentNodeUUID (FlowRun.r run) = "".
Proof.
  intros Hpath. unfold newRun. rewrite Hpath.
  destruct (FlowIDForUUID _ _); [done|].
  by destruct (bool_decide _ && bool_decide _); intros [= <-].
Qed.

(** X10: an engine status that is not a key of [runStatusMap] is no error:
    newRun builds a record with the empty status, is_active false and a
    null exit_type. *)
Theorem newRun_unknown_status oa session fr run :
  flows.Run.Status fr ∉ [flows.RunStatusActive; flows.RunStatusWaiting;
                         flows.RunStatusCompleted; flows.RunStatusExpired;
                         flows.RunStatusFailed] →
  newRun oa session fr = inr run →
  FlowRun.Status (FlowRun.r run) = ""
  ∧ FlowRun.IsActive (FlowRun.r run) = false
  ∧ FlowRun.ExitType (FlowRun.r run) = "".
Proof.
  intros Hunknown Hrun.
  destruct (newRun_status _ _ _ _ Hrun) as (Hst & Hact & Hexit).
  rewrite !not_elem_of_cons in Hunknown.
  destruct Hunknown as (Ha & Hw & Hc & Hx & Hf & _).
  assert (Hempty : FlowRun.Status (FlowRun.r run) = "").
  { rewrite Hst.
    destruct (go_index_runStatusMap (flows.Run.Status fr))
      as [[? _]|[[? _]|[[? _]|[[? _]|[[? _]|(_ & _ & ->)]]]]]; done. }
  assert (Hinactive : FlowRun.IsActive (FlowRun.r run) = false).
  { rewrite Hact. apply bool_decide_eq_false_2. tauto. }
  by rewrite Hexit, Hinactive, Hempty.
Qed.

(** The path is copied step by step. *)
Lemma newRun_path oa session fr run :
  newRun oa session fr = inr run →
  FlowRun.Path (FlowRun.r run)
  = (fun p => Step.mk (flows.Step.UUID p) (flows.Step.NodeUUID p)
                      (flows.Step.ArrivedOn p) (flows.Step.ExitUUID p))
      <$> flows.Run.Path fr.
Proof.
  unfold newRun. destruct (FlowIDForUUID _ _); [done|].
  by destruct (bool_decide _ && bool_decide _); intros [= <-].
Qed.

(** X11: the path of the record newRun builds has as many steps as the
    engine's path, and its i-th step has the uuid, the node, the arrival
    time and the exit of the engine's i-th step. *)
Theorem newRun_path_copy oa session fr run :
  newRun oa session fr = inr run →
  length (FlowRun.Path (FlowRun.r run)) = length (flows.Run.Path fr)
  ∧ (∀ i p, flows.Run.Path fr !! i = Some p →
       ∃ step, FlowRun.Path (FlowRun.r run) !! i = Some step
         ∧ Step.UUID step = flows.Step.UUID p
         ∧ Step.NodeUUID step = flows.Step.NodeUUID p
         ∧ Step.ArrivedOn step = flows.Step.ArrivedOn p
         ∧ Step.ExitUUID step = flows.Step.ExitUUID p)
  ∧ (∀ i, flows.Run.Path fr !! i = None → FlowRun.Path (FlowRun.r run) !! i = None).
Proof.
  intros Hrun. rewrite (newRun_path _ _ _ _ Hrun), length_fmap.
  split; [done|]. split.
  - intros i p Hp. rewrite list_lookup_fmap, Hp. eexists. by split.
  - intros i Hnone. by rewrite list_lookup_fmap, Hnone.
Qed.

(** A run without path. *)
Lemma newRun_empty_path_witness :
  ∃ run, newRun testAssets bobSession strayEngineRun = inr run
    ∧ FlowRun.Path (FlowRun.r run) = []
    ∧ FlowRun.CurrentNodeUUID (FlowRun.r run) = "".
Proof.
  eexists. split; [reflexivity|].
  exact (newRun_empty_path testAssets bobSession strayEngineRun _ eq_refl eq_refl).
Defined.

(** A run with the status interrupted, which the engine's map does not
    have. *)
Lemma newRun_unknown_status_witness :
  ∃ run, newRun testAssets bobSession strayEngineRun = inr run
    ∧ FlowRun.Status (FlowRun.r run) = ""
    ∧ FlowRun.IsActive (FlowRun.r run) = false
    ∧ FlowRun.ExitType (FlowRun.r run) = "".
Proof.
  eexists. split; [reflexivity|].
  apply (newRun_unknown_status testAssets bobSession strayEngineRun); [|reflexivity].
  rewrite !not_elem_of_cons. repeat split; try discriminate. apply not_elem_of_nil.
Defined.

(** The two steps of Bob's run. *)
Lemma newRun_path_copy_witness :
  ∃ run, newRun testAssets bobSession bobEngineRun = inr run
    ∧ length (FlowRun.Path (FlowRun.r run)) = 2%nat.
Proof.
  eexists. split; [reflexivity|].
  exact (proj1 (newRun_path_copy testAssets bobSession bobEngineRun _ eq_refl)).
Defined.

(** No id of the table is beyond the largest one. *)
Lemma nextID_fresh {Row : Type} (table : gmap Z Row) : table !! nextID table = None.
Proof.
  unfold nextID.
  assert (Hmax : ∀ id, is_Some (table !! id) →
                   (id ≤ map_fold (fun id _ acc => Z.max id acc) 0 table)%Z).
  { apply (map_fold_weak_ind
             (fun acc (m : gmap Z Row) => ∀ id, is_Some (m !! id) → (id ≤ acc)%Z)).
    - intros id. rewrite lookup_empty. by intros [? ?].
    - intros i x m acc _ IH id. rewrite lookup_insert.
      case_decide as Hid; [subst; lia|].
      intros Hsome. specialize (IH id Hsome). lia. }
  apply eq_None_not_Some. intros Hsome. specialize (Hmax _ Hsome). lia.
Qed.

(** X12: inserting a run record returns an id that no row had, stores under
    it the record with that id and with modified_on set to now instead of
    the record's own modified-on, and changes no other run row, no session
    and no connection. *)
Theorem insertRunSQL_round_trip now (r : FlowRun.r_t) tx :
  let tx' := (insertRunSQL now r tx).1 in
  let id := (insertRunSQL now r tx).2 in
  flows_flowrun tx !! id = None
  ∧ flows_flowrun tx' !! id = Some (insertRunRow id now r)
  ∧ FlowRun.ID (insertRunRow id now r) = id
  ∧ FlowRun.ModifiedOn (insertRunRow id now r) = now
  ∧ (∀ id', id' ≠ id → flows_flowrun tx' !! id' = flows_flowrun tx !! id')
  ∧ flows_flowsession tx' = flows_flowsession tx
  ∧ channels_channelconnection tx' = channels_channelconnection tx.
Proof.
  simpl. split; [apply nextID_fresh|]. split; [apply lookup_insert_eq|].
  do 2 (split; [done|]). split; [|done].
  intros id' Hid. by apply lookup_insert_ne.
Qed.

(** X13: a run record built by newRun and inserted can be asked for its
    expiration under the returned id: RunExpiration returns the engine
    run's expiration when the engine run waits and has one, and a nil
    expiration when the engine run does not wait (the query not
    failing). *)
Theorem newRun_insert_RunExpiration drv oa session fr run now tx :
  newRun oa session fr = inr run →
  query_err drv = None →
  let tx' := (insertRunSQL now (FlowRun.r run) tx).1 in
  let id := (insertRunSQL now (FlowRun.r run) tx).2 in
  (∀ expiration,
     flows.Run.Status fr = flows.RunStatusWaiting →
     flows.Run.ExpiresOn fr = Some expiration →
     RunExpiration drv tx' id = inr (Some expiration))
  ∧ (flows.Run.Status fr ≠ flows.RunStatusWaiting →
     RunExpiration drv tx' id = inr None).
Proof.
  intros Hrun Hquery. simpl.
  destruct (newRun_status _ _ _ _ Hrun) as (Hst & _ & _).
  assert (Hexpires : FlowRun.ExpiresOn (FlowRun.r run) = flows.Run.ExpiresOn fr).
  { revert Hrun. unfold newRun. destruct (FlowIDForUUID _ _); [done|].
    by destruct (bool_decide _ && bool_decide _); intros [= <-]. }
  unfold RunExpiration, selectRunExpiration. rewrite Hquery. simpl.
  rewrite lookup_insert_eq. simpl. rewrite Hst, Hexpires. split.
  - intros expiration -> ->. done.
  - intros Hnot.
    rewrite bool_decide_eq_false_2; [done|].
    destruct (go_index_runStatusMap (flows.Run.Status fr))
      as [[_ ->]|[[? _]|[[_ ->]|[[_ ->]|[[_ ->]|(_ & _ & ->)]]]]]; done.
Qed.

(** Bob's waiting run, inserted into the test database, expires at 5000;
    his completed run, inserted, has no expiration. *)
Lemma newRun_insert_RunExpiration_witness :
  ∃ run, newRun testAssets bobSession (bobWaitingRun flows.RunStatusWaiting 100%Z []) = inr run
    ∧ RunExpiration okDriver (insertRunSQL 120%Z (FlowRun.r run) contactsTestDB).1
        (insertRunSQL 120%Z (FlowRun.r run) contactsTestDB).2 = inr (Some 5000%Z).
Proof.
  eexists. split; [reflexivity|].
  exact (proj1 (newRun_insert_RunExpiration okDriver testAssets bobSession
                  (bobWaitingRun flows.RunStatusWaiting 100%Z []) _ 120%Z contactsTestDB
                  eq_refl eq_refl) 5000%Z eq_refl eq_refl).
Defined.

End RunRecords.

Section Overlap.

Implicit Types (drv : Driver) (now : Time) (db tx : DB)
  (flows_flow : gmap FlowID Flow.t) (contacts : list ContactID).

(** The contacts the started-overlap statement selects. *)
Lemma flowStartedOverlapSQL_elem contacts (flowID : FlowID) db (c : ContactID) :
  c ∈ flowStartedOverlapSQL contacts flowID db
  ↔ c ∈ contacts
    ∧ ∃ id fr, flows_flowrun db !! id = Some fr
               ∧ FlowRun.ContactID fr = c ∧ FlowRun.FlowID fr = flowID.
Proof.
  unfold flowStartedOverlapSQL.
  rewrite elem_of_remove_dups, list_elem_of_fmap. split.
  - intros (fr & -> & Hfr). apply list_elem_of_filter in Hfr as [[Hany Hflow] Hin].
    apply list_elem_of_fmap in Hin as ([id fr'] & -> & Hin).
    apply elem_of_map_to_list in Hin. simpl in *.
    split; [by apply bool_decide_eq_true_1 in Hany|]. by exists id, fr'.
  - intros (Hc & id & fr & Hrow & <- & <-). exists fr. split; [done|].
    apply list_elem_of_filter. split; [split; [by apply sql_any_true | done]|].
    apply list_elem_of_fmap. exists (id, fr). split; [done|].
    by apply elem_of_map_to_list.
Qed.

(** X14: when its query does not fail, FindFlowStartedOverlap returns,
    without error and without duplicates, exactly the passed contacts that
    have a run in the flow, of whatever status; when the query fails it
    returns the driver's error as it is and no contact. *)
Theorem FindFlowStartedOverlap_result drv db (flowID : FlowID) contacts :
  (query_err drv = None →
   (FindFlowStartedOverlap drv db flowID contacts).2 = None
   ∧ NoDup (FindFlowStartedOverlap drv db flowID contacts).1
   ∧ ∀ c, c ∈ (FindFlowStartedOverlap drv db flowID contacts).1
          ↔ c ∈ contacts
            ∧ ∃ id fr, flows_flowrun db !! id = Some fr
                       ∧ FlowRun.ContactID fr = c ∧ FlowRun.FlowID fr = flowID)
  ∧ (∀ err, query_err drv = Some err →
       FindFlowStartedOverlap drv db flowID contacts = ([], Some err)).
Proof.
  unfold FindFlowStartedOverlap, SelectContext. split.
  - intros ->. simpl. split; [done|]. split; [apply NoDup_remove_dups|].
    intros c. apply flowStartedOverlapSQL_elem.
  - by intros err ->.
Qed.

(** Cathy has a run in the favorites flow of the test database, contact 5
    has none. *)
Lemma FindFlowStartedOverlap_result_witness :
  CathyID ∈ (FindFlowStartedOverlap okDriver contactsTestDB FavoritesID [CathyID; 5%Z]).1
  ∧ 5%Z ∉ (FindFlowStartedOverlap okDriver contactsTestDB FavoritesID [CathyID; 5%Z]).1.
Proof.
  destruct (proj1 (FindFlowStartedOverlap_result okDriver contactsTestDB FavoritesID
                     [CathyID; 5%Z]) eq_refl) as (_ & _ & Hiff).
  split.
  - apply Hiff. split; [left|].
    exists 2%Z, (testRun 2%Z 2%Z CathyID RunStatusWaiting FavoritesID).
    split; [vm_compute; reflexivity | split; reflexivity].
  - assert (Hlist : (FindFlowStartedOverlap okDriver contactsTestDB FavoritesID
                       [CathyID; 5%Z]).1 = [CathyID]) by (vm_compute; reflexivity).
    rewrite Hlist. apply not_elem_of_cons. split; [discriminate | apply not_elem_of_nil].
Defined.

(** The runs before and after a call of ExpireRunsAndSessions have the
    same ids, contacts and flows. *)
Lemma ExpireRunsAndSessions_run_keys drv now db runIDs sessionIDs id :
  flows_flowrun (ExpireRunsAndSessions drv now db runIDs sessionIDs).1 !! id
  = flows_flowrun db !! id
  ∨ ∃ fr, flows_flowrun db !! id = Some fr
          ∧ flows_flowrun (ExpireRunsAndSessions drv now db runIDs sessionIDs).1 !! id
            = Some (expireRun now fr).
Proof.
  destruct (ExpireRunsAndSessions_db drv now db runIDs sessionIDs) as [-> | ->];
    [by left|].
  assert (Hruns : flows_flowrun
                    (if bool_decide (0 < length sessionIDs)%nat
                     then expireSessionsSQL sessionIDs now (expireRunsSQL runIDs now db)
                     else expireRunsSQL runIDs now db)
                  = sql_update (fun id _ => sql_any id runIDs) (expireRun now)
                               (flows_flowrun db))
    by (by case_bool_decide).
  rewrite Hruns, sql_update_lookup.
  destruct (flows_flowrun db !! id) as [fr|]; simpl; [|by left].
  destruct (sql_any id runIDs); [right; by exists fr | by left].
Qed.

(** X15: expiring runs never changes which contacts have been in a flow:
    FindFlowStartedOverlap selects the same contacts after a call of
    ExpireRunsAndSessions as before it, whatever the call returned. *)
Theorem FindFlowStartedOverlap_after_expire drv now db runIDs sessionIDs drv'
    (flowID : FlowID) contacts (c : ContactID) :
  c ∈ (FindFlowStartedOverlap drv'
         (ExpireRunsAndSessions drv now db runIDs sessionIDs).1 flowID contacts).1
  ↔ c ∈ (FindFlowStartedOverlap drv' db flowID contacts).1.
Proof.
  unfold FindFlowStartedOverlap, SelectContext.
  destruct (query_err drv'); simpl; [done|].
  rewrite !flowStartedOverlapSQL_elem.
  split; intros (Hc & id & fr & Hrow & Hcontact & Hflow); (split; [done|]).
  - destruct (ExpireRunsAndSessions_run_keys drv now db runIDs sessionIDs id)
      as [Hsame|(fr0 & Hrow0 & Hrow')].
    + exists id, fr. by rewrite <- Hsame.
    + exists id, fr0. rewrite Hrow' in Hrow. by simplify_eq.
  - destruct (ExpireRunsAndSessions_run_keys drv now db runIDs sessionIDs id)
      as [Hsame|(fr0 & Hrow0 & Hrow')].
    + exists id, fr. by rewrite Hsame.
    + exists id, (expireRun now fr0). rewrite Hrow0 in Hrow. by simplify_eq.
Qed.

(** X16: a run inserted for a contact in a flow makes FindFlowStartedOverlap
    select that contact for that flow when it is among the passed
    contacts, and changes the selection in no other way. *)
Theorem FindFlowStartedOverlap_after_insert drv now (r : FlowRun.r_t) tx
    (flowID : FlowID) contacts (c : ContactID) :
  query_err drv = None →
  c ∈ (FindFlowStartedOverlap drv (insertRunSQL now r tx).1 flowID contacts).1
  ↔ c ∈ (FindFlowStartedOverlap drv tx flowID contacts).1
    ∨ (c = FlowRun.ContactID r ∧ flowID = FlowRun.FlowID r ∧ c ∈ contacts).
Proof.
  intros Hquery. unfold FindFlowStartedOverlap, SelectContext. rewrite Hquery. simpl.
  rewrite !flowStartedOverlapSQL_elem. simpl.
  pose proof (nextID_fresh (flows_flowrun tx)) as Hfresh. split.
  - intros (Hc & id & fr & Hrow & Hcontact & Hflow).
    rewrite lookup_insert in Hrow. case_decide as Hid.
    + simplify_eq. right. by repeat split.
    + left. split; [done|]. by exists id, fr.
  - intros [(Hc & id & fr & Hrow & Hcontact & Hflow)|(-> & -> & Hc)]; (split; [done|]).
    + exists id, fr. rewrite lookup_insert_ne; [done|]. by intros <-; simplify_eq.
    + eexists _, _. by rewrite lookup_insert_eq.
Qed.

(** Contact 5 is selected for the favorites flow once a run of it is
    inserted. *)
Lemma FindFlowStartedOverlap_after_insert_witness :
  5%Z ∈ (FindFlowStartedOverlap okDriver
           (insertRunSQL 120%Z (testRun 0%Z 2%Z 5%Z RunStatusWaiting FavoritesID)
                         contactsTestDB).1
           FavoritesID [CathyID; 5%Z]).1.
Proof.
  apply (FindFlowStartedOverlap_after_insert okDriver 120%Z
           (testRun 0%Z 2%Z 5%Z RunStatusWaiting FavoritesID) contactsTestDB
           FavoritesID [CathyID; 5%Z] 5%Z eq_refl).
  right. split; [reflexivity|]. split; [reflexivity|].
  right. left.
Defined.

(** What the WHERE clause of the active-overlap statement demands. *)
Lemma activeSessionJoin_true flows_flow (flowType : FlowType) contacts (fs : Session.t) :
  activeSessionJoin flows_flow flowType contacts fs = true
  ↔ Session.Status fs = SessionStatusWaiting
    ∧ Session.ContactID fs ∈ contacts
    ∧ ∃ flowID ff, Session.CurrentFlowID fs = Some flowID
        ∧ flows_flow !! flowID = Some ff
        ∧ Flow.IsActive ff = true
        ∧ Flow.IsArchived ff = false
        ∧ Flow.FlowType ff = flowType.
Proof.
  unfold activeSessionJoin, sql_any. split.
  - destruct (Session.CurrentFlowID fs) as [flowID|]; [|done].
    destruct (flows_flow !! flowID) as [ff|] eqn:Hff; [|done].
    rewrite !andb_true_iff, !bool_decide_eq_true.
    intros ((((Hw & Hactive) & Harchived) & Htype) & Hin).
    split; [done|]. split; [done|]. exists flowID, ff. by repeat split.
  - intros (Hw & Hin & flowID & ff & -> & -> & Hactive & Harchived & Htype).
    rewrite !andb_true_iff, !bool_decide_eq_true. by repeat split.
Qed.

(** The contacts the active-overlap statement selects. *)
Lemma activeSessionOverlapSQL_elem (flowType : FlowType) contacts flows_flow db (c : ContactID) :
  c ∈ activeSessionOverlapSQL flowType contacts flows_flow db
  ↔ ∃ id fs, flows_flowsession db !! id = Some fs
      ∧ Session.ContactID fs = c
      ∧ activeSessionJoin flows_flow flowType contacts fs = true.
Proof.
  unfold activeSessionOverlapSQL.
  rewrite elem_of_remove_dups, list_elem_of_fmap. split.
  - intros (fs & -> & Hfs). apply list_elem_of_filter in Hfs as [Hjoin Hin].
    apply list_elem_of_fmap in Hin as ([id fs'] & -> & Hin).
    apply elem_of_map_to_list in Hin. by exists id, fs'.
  - intros (id & fs & Hrow & <- & Hjoin). exists fs. split; [done|].
    apply list_elem_of_filter. split; [done|].
    apply list_elem_of_fmap. exists (id, fs). split; [done|].
    by apply elem_of_map_to_list.
Qed.

(** X17: when its query does not fail, FindActiveSessionOverlap returns,
    without error and without duplicates, exactly the passed contacts that
    have a waiting session whose current flow is active, is not archived
    and is of the given type, where the type Background stands for
    Messaging; a session without current flow counts for nothing. When the
    query fails it returns the driver's error as it is and no contact. *)
Theorem FindActiveSessionOverlap_result drv flows_flow db (flowType : FlowType) contacts :
  (query_err drv = None →
   (FindActiveSessionOverlap drv flows_flow db flowType contacts).2 = None
   ∧ NoDup (FindActiveSessionOverlap drv flows_flow db flowType contacts).1
   ∧ ∀ c, c ∈ (FindActiveSessionOverlap drv flows_flow db flowType contacts).1
          ↔ c ∈ contacts
            ∧ ∃ id fs flowID ff,
                flows_flowsession db !! id = Some fs
                ∧ Session.ContactID fs = c
                ∧ Session.Status fs = SessionStatusWaiting
                ∧ Session.CurrentFlowID fs = Some flowID
                ∧ flows_flow !! flowID = Some ff
                ∧ Flow.IsActive ff = true
                ∧ Flow.IsArchived ff = false
                ∧ Flow.FlowType ff
                  = (if bool_decide (flowType = FlowTypeBackground)
                     then FlowTypeMessaging else flowType))
  ∧ (∀ err, query_err drv = Some err →
       FindActiveSessionOverlap drv flows_flow db flowType contacts = ([], Some err)).
Proof.
  unfold FindActiveSessionOverlap, SelectContext. split.
  - intros ->. simpl. split; [done|]. split; [apply NoDup_remove_dups|].
    intros c. rewrite activeSessionOverlapSQL_elem. split.
    + intros (id & fs & Hrow & <- & Hjoin).
      apply activeSessionJoin_true in Hjoin
        as (Hw & Hin & flowID & ff & Hflow & Hff & Hactive & Harchived & Htype).
      split; [done|]. exists id, fs, flowID, ff. by repeat split.
    + intros (Hc & id & fs & flowID & ff & Hrow & <- & Hw & Hflow & Hff
              & Hactive & Harchived & Htype).
      exists id, fs. split; [done|]. split; [done|].
      apply activeSessionJoin_true. split; [done|]. split; [done|].
      exists flowID, ff. by repeat split.
  - by intros err ->.
Qed.

(** In the test database Bob waits in the favorites flow, and nobody waits
    in a voice flow. *)
Lemma FindActiveSessionOverlap_result_witness :
  BobID ∈ (FindActiveSessionOverlap okDriver testFlows contactsTestDB
             FlowTypeMessaging [BobID]).1
  ∧ (FindActiveSessionOverlap okDriver testFlows contactsTestDB FlowTypeVoice [BobID]).1 = [].
Proof.
  split; [|vm_compute; reflexivity].
  apply (proj1 (FindActiveSessionOverlap_result okDriver testFlows contactsTestDB
                  FlowTypeMessaging [BobID]) eq_refl).
  split; [left|].
  exists 3%Z, (testSession 3%Z BobID FlowTypeMessaging SessionStatusWaiting FavoritesID None),
    FavoritesID, (Flow.mk true false FlowTypeMessaging).
  repeat split; vm_compute; reflexivity.
Defined.

(** X18: for FindActiveSessionOverlap a background flow type is the
    messaging flow type: both give the same result; and a session in a
    flow of type Background is never counted, whatever type is asked
    for. *)
Theorem FindActiveSessionOverlap_background drv flows_flow db contacts :
  FindActiveSessionOverlap drv flows_flow db FlowTypeBackground contacts
  = FindActiveSessionOverlap drv flows_flow db FlowTypeMessaging contacts
  ∧ ∀ flowType,
      (∀ id fs flowID ff,
         flows_flowsession db !! id = Some fs →
         Session.CurrentFlowID fs = Some flowID →
         flows_flow !! flowID = Some ff →
         Flow.FlowType ff = FlowTypeBackground) →
      (FindActiveSessionOverlap drv flows_flow db flowType contacts).1 = [].
Proof.
  split; [done|]. intros flowType Hbackground.
  unfold FindActiveSessionOverlap, SelectContext.
  destruct (query_err drv); simpl; [done|].
  apply elem_of_nil_inv. intros c Hc.
  apply activeSessionOverlapSQL_elem in Hc as (id & fs & Hrow & _ & Hjoin).
  apply activeSessionJoin_true in Hjoin
    as (_ & _ & flowID & ff & Hflow & Hff & _ & _ & Htype).
  rewrite (Hbackground _ _ _ _ Hrow Hflow Hff) in Htype.
  by case_bool_decide; simplify_eq.
Qed.

(** A session row after a call of ExpireRunsAndSessions is the row before
    it, or its expired version. *)
Lemma ExpireRunsAndSessions_session_keys drv now db runIDs sessionIDs id :
  flows_flowsession (ExpireRunsAndSessions drv now db runIDs sessionIDs).1 !! id
  = flows_flowsession db !! id
  ∨ ∃ fs, flows_flowsession db !! id = Some fs
          ∧ flows_flowsession (ExpireRunsAndSessions drv now db runIDs sessionIDs).1 !! id
            = Some (expireSession now fs).
Proof.
  destruct (ExpireRunsAndSessions_db drv now db runIDs sessionIDs) as [-> | ->];
    [by left|].
  case_bool_decide; unfold expireSessionsSQL, expireRunsSQL; cbn [flows_flowsession];
    [|by left].
  rewrite sql_update_lookup.
  destruct (flows_flowsession db !! id) as [fs|]; simpl; [|by left].
  destruct (sql_any id sessionIDs); [right; by exists fs | by left].
Qed.

(** X19: expiring never makes a contact overlap: a contact that
    FindActiveSessionOverlap selects after a call of ExpireRunsAndSessions
    was selected before it; and after a call with run ids that returns
    nil, a contact all of whose waiting sessions were passed is not
    selected any more. *)
Theorem FindActiveSessionOverlap_after_expire drv now db runIDs sessionIDs drv'
    flows_flow (flowType : FlowType) contacts (c : ContactID) :
  (c ∈ (FindActiveSessionOverlap drv' flows_flow
          (ExpireRunsAndSessions drv now db runIDs sessionIDs).1 flowType contacts).1 →
   c ∈ (FindActiveSessionOverlap drv' flows_flow db flowType contacts).1)
  ∧ ((ExpireRunsAndSessions drv now db runIDs sessionIDs).2 = None →
     runIDs ≠ [] →
     (∀ id fs, flows_flowsession db !! id = Some fs →
        Session.ContactID fs = c →
        Session.Status fs = SessionStatusWaiting →
        id ∈ sessionIDs) →
     c ∉ (FindActiveSessionOverlap drv' flows_flow
            (ExpireRunsAndSessions drv now db runIDs sessionIDs).1 flowType contacts).1).
Proof.
  unfold FindActiveSessionOverlap, SelectContext.
  destruct (query_err drv'); simpl; [split; [done | intros _ _ _; apply not_elem_of_nil]|].
  set (effective := if bool_decide (flowType = FlowTypeBackground)
                    then FlowTypeMessaging else flowType).
  rewrite !activeSessionOverlapSQL_elem. split.
  - intros (id & fs & Hrow & Hcontact & Hjoin).
    destruct (ExpireRunsAndSessions_session_keys drv now db runIDs sessionIDs id)
      as [Hsame|(fs0 & Hrow0 & Hrow')].
    + exists id, fs. by rewrite <- Hsame.
    + rewrite Hrow' in Hrow. by simplify_eq.
  - intros Hnil Hruns Hpassed (id & fs & Hrow & Hcontact & Hjoin).
    destruct (ExpireRunsAndSessions drv now db runIDs sessionIDs) as [db' err] eqn:Hcall.
    simpl in *. subst err.
    destruct (ExpireRunsAndSessions_session_keys drv now db runIDs sessionIDs id)
      as [Hsame|(fs0 & Hrow0 & Hrow')]; rewrite Hcall in *; simpl in *.
    + assert (Hrow0 : flows_flowsession db !! id = Some fs) by (by rewrite <- Hsame).
      pose proof (proj1 (activeSessionJoin_true _ _ _ _) Hjoin) as (Hw & _).
      pose proof (Hpassed id fs Hrow0 Hcontact Hw) as Hin.
      pose proof (ExpireRunsAndSessions_sessions _ _ _ _ _ _ _ _ Hruns Hcall Hin Hrow0)
        as Hexpired.
      rewrite Hrow in Hexpired. injection Hexpired as Hfs.
      rewrite Hfs in Hw. discriminate Hw.
    + rewrite Hrow' in Hrow. by simplify_eq.
Qed.

(** Bob overlaps in the test database, and no more once his waiting
    session 3 is expired with its run. *)
Lemma FindActiveSessionOverlap_after_expire_witness :
  BobID ∈ (FindActiveSessionOverlap okDriver testFlows contactsTestDB
             FlowTypeMessaging [BobID]).1
  ∧ BobID ∉ (FindActiveSessionOverlap okDriver testFlows
               (ExpireRunsAndSessions okDriver 900%Z contactsTestDB [3%Z] [3%Z]).1
               FlowTypeMessaging [BobID]).1.
Proof.
  split.
  - assert (Hlist : (FindActiveSessionOverlap okDriver testFlows contactsTestDB
                       FlowTypeMessaging [BobID]).1 = [BobID]) by (vm_compute; reflexivity).
    rewrite Hlist. left.
  - apply (proj2 (FindActiveSessionOverlap_after_expire okDriver 900%Z contactsTestDB
                    [3%Z] [3%Z] okDriver testFlows FlowTypeMessaging [BobID] BobID));
      [reflexivity | discriminate |].
    intros id fs Hrow Hcontact _.
    assert (Hids : ∀ id' fs', flows_flowsession contactsTestDB !! id' = Some fs' →
                     Session.ContactID fs' = BobID → id' = 3%Z).
    { intros id' fs'. unfold contactsTestDB, insertSessionAndRun, emptyDB.
      cbn [flows_flowsession]. rewrite !lookup_insert_Some, lookup_empty.
      intros [[<- <-]|[_ [[<- <-]|[_ [[<- <-]|[_ [[<- <-]|[_ [=]]]]]]]]];
        simpl; intros [=]; reflexivity. }
    rewrite (Hids id fs Hrow Hcontact). left.
Defined.

End Overlap.

(** * Properties of the locker *)

Section Locker.

Import redisx.

Implicit Types (l : Locker) (store : Redis) (rnd : nat → nat) (val : string).

Lemma length_string_of_list_ascii (cs : list Ascii.ascii) :
  String.length (String.string_of_list_ascii cs) = length cs.
Proof. induction cs as [|c cs IH]; simpl; [done | by rewrite IH]. Qed.

Lemma letterAt_letter (i : nat) :
  (i < String.length letterBytes)%nat →
  letterAt i ∈ String.list_ascii_of_string letterBytes.
Proof.
  intros Hi.
  assert (Hall : Forall (fun j => letterAt j ∈ String.list_ascii_of_string letterBytes)
                        (seq 0 (String.length letterBytes))).
  { apply (bool_decide_unpack _). vm_compute. exact I. }
  rewrite Forall_forall in Hall. apply Hall. apply elem_of_seq. lia.
Qed.

Lemma makeRandom_length rnd (n : nat) : String.length (makeRandom rnd n) = n.
Proof.
  unfold makeRandom. by rewrite length_string_of_list_ascii, length_fmap, length_seq.
Qed.

Lemma makeRandom_nonempty rnd : makeRandom rnd 10 ≠ "".
Proof.
  intros Hempty. pose proof (makeRandom_length rnd 10) as Hlen.
  by rewrite Hempty in Hlen.
Qed.

(** X20: makeRandom returns a string of exactly the length asked for, all
    of whose characters are letters of [letterBytes], whatever the random
    source gives; the lock value of Grab, of length 10, is thus never the
    empty string. *)
Theorem makeRandom_letters rnd (n : nat) :
  String.length (makeRandom rnd n) = n
  ∧ (∀ c, c ∈ String.list_ascii_of_string (makeRandom rnd n) →
          c ∈ String.list_ascii_of_string letterBytes)
  ∧ makeRandom rnd 10 ≠ "".
Proof.
  split; [apply makeRandom_length|]. split; [|apply makeRandom_nonempty].
  unfold makeRandom.
  intros c. rewrite String.list_ascii_of_string_of_list_ascii.
  intros (i & -> & _)%list_elem_of_fmap.
  apply letterAt_letter. unfold rand_Intn. apply Nat.mod_upper_bound. by vm_compute.
Qed.

(** Every way the loop of Grab can end. *)
Lemma grabLoop_outcome (k val : string) (expires : Z) (retry : Duration)
    (attempts : list Attempt) store' v err :
  grabLoop k val expires retry attempts = Some (store', v, err) →
  ∃ a, a ∈ attempts
    ∧ ((err = None ∧ v = val ∧ att_store a !! k = None ∧ (0 < expires)%Z
        ∧ store' = <[k := mkEntry val expires]> (att_store a))
       ∨ (err = None ∧ v = "" ∧ store' = att_store a
          ∧ is_Some (att_store a !! k) ∧ (retry < att_elapsed a)%Z)
       ∨ (is_Some err ∧ v = "" ∧ store' = att_store a)).
Proof.
  induction attempts as [|a attempts IH]; simpl; [done|].
  destruct (att_err a) as [e|].
  { intros [= <- <- <-]. exists a. split; [left|]. right; right. eauto. }
  unfold SET_EX_NX. case_bool_decide as Hexp.
  { intros [= <- <- <-]. exists a. split; [left|]. right; right. eauto. }
  destruct (att_store a !! k) as [e|] eqn:Hkey.
  - case_bool_decide as Hretry.
    + intros [= <- <- <-]. exists a. split; [left|]. right; left. eauto 6.
    + intros (a' & Hin & Hcases)%IH. exists a'. split; [by right | done].
  - intros [= <- <- <-]. exists a. split; [left|]. left.
    repeat split; [done | lia].
Qed.

(** X21: however Grab ends, it has changed the database in one way at most:
    when it returns a lock value, which is then not empty, the key of the
    lock did not exist when it was set, and now holds that value with the
    expiration of the locker in whole seconds; when it returns the empty
    string, with or without error, the database is as the last iteration
    found it, and without error this means that the lock was held by
    another value and the retry period was over. *)
Theorem Grab_outcome l rnd (retry : Duration) (attempts : list Attempt) store' v err :
  Grab l rnd retry attempts = Some (store', v, err) →
  ∃ a, a ∈ attempts
    ∧ ((err = None ∧ v = makeRandom rnd 10 ∧ v ≠ ""
        ∧ att_store a !! key l = None
        ∧ store' = <[key l := mkEntry v (expiration l `quot` time_Second)%Z]> (att_store a))
       ∨ (err = None ∧ v = "" ∧ store' = att_store a
          ∧ is_Some (att_store a !! key l) ∧ (retry < att_elapsed a)%Z)
       ∨ (is_Some err ∧ v = "" ∧ store' = att_store a)).
Proof.
  unfold Grab. intros (a & Hin & Hcases)%grabLoop_outcome. exists a. split; [done|].
  destruct Hcases as [(-> & -> & Hfree & _ & ->)|[?|?]]; [left | by right; left | by right; right].
  by repeat split.
Qed.

(** In the test environment the second iteration finds the lock free. *)
Lemma Grab_outcome_witness :
  ∃ store' v, Grab contactLocker testRandom 5000000000%Z testAttempts = Some (store', v, None)
    ∧ v ≠ "" ∧ store' !! key contactLocker = Some (mkEntry v 60%Z).
Proof.
  do 2 eexists. split; [vm_compute; reflexivity|].
  destruct (Grab_outcome contactLocker testRandom 5000000000%Z testAttempts
              _ _ _ ltac:(vm_compute; reflexivity))
    as (a & _ & [(_ & _ & Hv & _ & _)|[(_ & Hv & _)|(_ & Hv & _)]]); [|discriminate Hv..].
  split; [exact Hv|]. vm_compute. reflexivity.
Defined.

(** X22: Grab waits for the lock: when the first iterations find the lock
    held and the retry period not over, and the next one finds it free
    (the connection working, and the expiration of the locker being a
    second at least), Grab returns the lock value and leaves that
    iteration's database with the lock set to it. *)
Theorem Grab_waits_then_acquires l rnd (retry : Duration) (held : list Attempt)
    (a : Attempt) (rest : list Attempt) :
  (time_Second ≤ expiration l)%Z →
  Forall (fun h => att_err h = None ∧ is_Some (att_store h !! key l)
                   ∧ (att_elapsed h ≤ retry)%Z) held →
  att_err a = None →
  att_store a !! key l = None →
  Grab l rnd retry (held ++ a :: rest)
  = Some (<[key l := mkEntry (makeRandom rnd 10) (expiration l `quot` time_Second)%Z]>
            (att_store a),
          makeRandom rnd 10, None).
Proof.
  intros Hexp Hheld Herr Hfree. unfold Grab.
  assert (Hpos : ¬ (expiration l `quot` time_Second ≤ 0)%Z).
  { unfold time_Second in *.
    pose proof (Z.quot_le_mono 1000000000 (expiration l) 1000000000 ltac:(lia) Hexp) as Hq.
    rewrite Z.quot_same in Hq by lia. lia. }
  induction Hheld as [|h held (Hherr & [e Hkey] & Hel) _ IH]; simpl.
  - unfold SET_EX_NX. by rewrite Herr, (bool_decide_eq_false_2 _ Hpos), Hfree.
  - unfold SET_EX_NX. rewrite Hherr, (bool_decide_eq_false_2 _ Hpos), Hkey.
    rewrite bool_decide_eq_false_2 by lia. apply IH.
Qed.

(** The test environment: one iteration with the lock held, then a free
    one. *)
Lemma Grab_waits_then_acquires_witness :
  Grab contactLocker testRandom 5000000000%Z testAttempts
  = Some (<[key contactLocker := mkEntry (makeRandom testRandom 10) 60%Z]> ∅,
          makeRandom testRandom 10, None).
Proof.
  apply (Grab_waits_then_acquires contactLocker testRandom 5000000000%Z
           [mkAttempt heldStore None 1000%Z] (mkAttempt ∅ None 1000001000%Z)
           [mkAttempt ∅ None 2000001000%Z]).
  - vm_compute. discriminate.
  - apply Forall_singleton. split; [reflexivity|]. split; [|vm_compute; discriminate].
    exists (mkEntry "someoneelse" 12%Z). vm_compute. reflexivity.
  - reflexivity.
  - reflexivity.
Defined.

(** The key of a locker determines its name. *)
Lemma key_inj l1 l2 : key l1 = key l2 → name l1 = name l2.
Proof. unfold key. intros Hkey. by simplify_eq/=. Qed.

Lemma releaseScript_lookup (k val : string) store (k' : string) :
  (releaseScript k val store).1 !! k'
  = if bool_decide (k' = k ∧ value <$> store !! k = Some val) then None else store !! k'.
Proof.
  unfold releaseScript, DEL. case_bool_decide as Hval.
  - destruct (store !! k) as [e|] eqn:Hk; [|done]. simpl.
    destruct (decide (k' = k)) as [->|Hne].
    + rewrite bool_decide_eq_true_2 by done. apply lookup_delete_eq.
    + rewrite bool_decide_eq_false_2 by (by intros [? _]). by apply lookup_delete_ne.
  - simpl. rewrite bool_decide_eq_false_2; [done|]. by intros [_ ?].
Qed.

(** X23: Release deletes the lock only for its owner: with a working
    connection it returns nil and removes the key of the locker exactly
    when the key holds the given value; a lock that is absent or held with
    another value is left as it is, and so is every other key, in
    particular the lock of every locker of another name. With a failing
    connection it returns the error and changes nothing. *)
Theorem Release_owner_only l store val :
  (Release l None store val).2 = None
  ∧ (value <$> store !! key l = Some val → (Release l None store val).1 !! key l = None)
  ∧ (value <$> store !! key l ≠ Some val → (Release l None store val).1 = store)
  ∧ (∀ k, k ≠ key l → (Release l None store val).1 !! k = store !! k)
  ∧ (∀ l', name l' ≠ name l → (Release l None store val).1 !! key l' = store !! key l')
  ∧ (∀ err, Release l (Some err) store val = (store, Some err)).
Proof.
  unfold Release. simpl. split; [done|]. split; [|split; [|split; [|split]]].
  - intros Hval. rewrite releaseScript_lookup. by rewrite bool_decide_eq_true_2.
  - intros Hval. unfold releaseScript. by rewrite bool_decide_eq_false_2.
  - intros k Hk. rewrite releaseScript_lookup. rewrite bool_decide_eq_false_2; [done|].
    by intros [? _].
  - intros l' Hname. rewrite releaseScript_lookup. rewrite bool_decide_eq_false_2; [done|].
    intros [Hkey _]. by apply key_inj in Hkey.
  - done.
Qed.

(** X24: a lock Grab has acquired is given back by Release with the value
    Grab returned: the database is then exactly the one in which Grab
    found the lock free. *)
Theorem Grab_Release_round_trip l rnd (retry : Duration) (attempts : list Attempt) store' v :
  Grab l rnd retry attempts = Some (store', v, None) →
  v ≠ "" →
  ∃ a, a ∈ attempts
    ∧ att_store a !! key l = None
    ∧ store' !! key l = Some (mkEntry v (expiration l `quot` time_Second)%Z)
    ∧ Release l None store' v = (att_store a, None).
Proof.
  unfold Grab. intros (a & Hin & Hcases)%grabLoop_outcome Hv.
  destruct Hcases as [(_ & -> & Hfree & _ & ->)|[(_ & ? & _)|(_ & ? & _)]]; [|done..].
  exists a. split; [done|]. split; [done|]. split; [apply lookup_insert_eq|].
  unfold Release, releaseScript, DEL. rewrite lookup_insert_eq. simpl.
  rewrite bool_decide_eq_true_2 by done. simpl.
  by rewrite delete_insert_id.
Qed.

(** The lock acquired in the test environment is released into the empty
    database it was found in. *)
Lemma Grab_Release_round_trip_witness :
  ∃ store' v, Grab contactLocker testRandom 5000000000%Z testAttempts = Some (store', v, None)
    ∧ v ≠ "" ∧ ∃ a, a ∈ testAttempts ∧ Release contactLocker None store' v = (att_store a, None).
Proof.
  do 2 eexists. split; [vm_compute; reflexivity|].
  assert (Hv : makeRandom testRandom 10 ≠ "") by apply makeRandom_nonempty.
  split; [exact Hv|].
  destruct (Grab_Release_round_trip contactLocker testRandom 5000000000%Z testAttempts
              _ _ ltac:(vm_compute; reflexivity) Hv) as (a & Hin & _ & _ & Hrelease).
  exists a. exact (conj Hin Hrelease).
Defined.

(** X25: Extend sets the expiration of the lock only for its owner: with a
    working connection, when the key of the locker holds the given value
    and the expiration is a second at least, the key keeps its value and
    gets the expiration in whole seconds, fractions of a second being
    dropped; a lock that is absent or held with another value is left as
    it is, and every other key is left as it is in any case. With a
    failing connection it returns the error and changes nothing. *)
Theorem Extend_owner_only l store val (expiration : Duration) :
  (value <$> store !! key l = Some val →
   (time_Second ≤ expiration)%Z →
   Extend l None store val expiration
   = (<[key l := mkEntry val (expiration `quot` time_Second)%Z]> store, None)
   ∧ (1 ≤ expiration `quot` time_Second)%Z
   ∧ (expiration `quot` time_Second * time_Second ≤ expiration)%Z)
  ∧ (value <$> store !! key l ≠ Some val → Extend l None store val expiration = (store, None))
  ∧ (∀ k, k ≠ key l → (Extend l None store val expiration).1 !! k = store !! k)
  ∧ (∀ err, Extend l (Some err) store val expiration = (store, Some err)).
Proof.
  unfold Extend, expireScript, EXPIRE. simpl. split; [|split; [|split]].
  - intros Hval Hexp.
    assert (Hq : (1 ≤ expiration `quot` time_Second)%Z).
    { unfold time_Second in *.
      pose proof (Z.quot_le_mono 1000000000 expiration 1000000000 ltac:(lia) Hexp) as Hq.
      by rewrite Z.quot_same in Hq by lia. }
    split; [|split; [done|]].
    + rewrite (bool_decide_eq_true_2 _ Hval).
      destruct (store !! key l) as [e|]; [|done]. simpl in Hval. simplify_eq.
      by rewrite bool_decide_eq_false_2 by lia.
    + unfold time_Second in *. rewrite Z.mul_comm. apply Z.mul_quot_le; lia.
  - intros Hval. by rewrite bool_decide_eq_false_2.
  - intros k Hk. case_bool_decide; [|done].
    destruct (store !! key l) as [e|]; [|done].
    case_bool_decide; simpl; [by apply lookup_delete_ne | by apply lookup_insert_ne].
  - done.
Qed.

(** Extending the lock of another client by a minute and a half. *)
Lemma Extend_owner_only_witness :
  Extend contactLocker None heldStore "someoneelse" 90500000000%Z
  = (<[key contactLocker := mkEntry "someoneelse" 90%Z]> heldStore, None)
  ∧ Extend contactLocker None heldStore "me" 90500000000%Z = (heldStore, None).
Proof.
  split.
  - apply (proj1 (Extend_owner_only contactLocker heldStore "someoneelse" 90500000000%Z));
      [vm_compute; reflexivity | vm_compute; discriminate].
  - apply (proj1 (proj2 (Extend_owner_only contactLocker heldStore "me" 90500000000%Z))).
    vm_compute. discriminate.
Defined.

End Locker.

(** * Properties of the resumes package *)

Section ResumesProperties.

Context {Session Resume Environment Contact Event Step : Type}.
Variable ReadTypeFromJSON : string → error + string.
Variable MarshalEnvironment : Environment → error + string.
Variable MarshalContact : Contact → error + string.
Variable ReadEnvironment : string → error + Environment.
Variable ReadContact : Session → string → error + Contact.
Variable EnvironmentEqual : Environment → Environment → bool.
Variable ContactEqual : Contact → Contact → bool.
Variable NewEnvironmentChangedEvent : Environment → Event.
Variable NewContactChangedEvent : Contact → Event.
Variable EnsureDynamicGroups : Environment → Contact → Contact.

Abbreviation readFunc := (@resumes.readFunc Session Resume).
Abbreviation ReadResume := (resumes.ReadResume ReadTypeFromJSON).
Abbreviation Apply :=
  (resumes.Apply (Step := Step) EnvironmentEqual ContactEqual NewEnvironmentChangedEvent
                 NewContactChangedEvent EnsureDynamicGroups).
Abbreviation marshal := (resumes.marshal MarshalEnvironment MarshalContact).
Abbreviation unmarshal := (resumes.unmarshal ReadEnvironment ReadContact).

(** X26: ReadResume hands the JSON to the function registered last for its
    type, whatever was registered for other types before or after; for a
    type that nothing is registered for it returns the error "unknown
    type" with the name of the type, and an error of reading the type is
    returned as it is. *)
Theorem ReadResume_dispatch (registeredTypes : gmap string readFunc) (session : Session)
    (data typeName : string) :
  ReadTypeFromJSON data = inr typeName →
  (∀ f, ReadResume (resumes.RegisterType typeName f registeredTypes) session data
        = f session data)
  ∧ (∀ f f', ReadResume (resumes.RegisterType typeName f'
                           (resumes.RegisterType typeName f registeredTypes)) session data
             = f' session data)
  ∧ (∀ f name' f', name' ≠ typeName →
       ReadResume (resumes.RegisterType name' f'
                     (resumes.RegisterType typeName f registeredTypes)) session data
       = f session data)
  ∧ (registeredTypes !! typeName = None →
     ReadResume registeredTypes session data
     = inl (errors_New ("unknown type: " ++ typeName))).
Proof.
  intros Htype. unfold resumes.ReadResume, resumes.RegisterType. rewrite Htype.
  split; [|split; [|split]].
  - intros f. by rewrite lookup_insert_eq.
  - intros f f'. by rewrite lookup_insert_eq.
  - intros f name' f' Hne. by rewrite lookup_insert_ne, lookup_insert_eq.
  - intros Hnone. unfold resumes.readFunc in *. by rewrite Hnone.
Qed.


(** X28: a resume written by marshal into a fresh envelope is read back by
    unmarshal into a fresh resume as it was, provided its environment and
    its contact, when it has them, are read back from their JSON as they
    were; and a resume that has neither is written without environment and
    contact. *)
Theorem marshal_unmarshal_round_trip (r : resumes.baseResume) (session : Session)
    (ty0 ty1 : string) (t0 t1 : Time) (e : resumes.baseResumeEnvelope) :
  (∀ env raw, resumes.environment r = Some env →
     MarshalEnvironment env = inr raw → ReadEnvironment raw = inr env) →
  (∀ c raw, resumes.contact r = Some c →
     MarshalContact c = inr raw → ReadContact session raw = inr c) →
  marshal r (resumes.mkEnvelope ty0 None None t0) = (e, None) →
  unmarshal (resumes.mkBaseResume ty1 None None t1) session e = (r, None)
  ∧ resumes.env_Type e = resumes.type_ r
  ∧ resumes.env_ResumedOn e = resumes.resumedOn r
  ∧ (resumes.environment r = None → resumes.env_Environment e = None)
  ∧ (resumes.contact r = None → resumes.env_Contact e = None).
Proof.
  intros Henv Hcontact. unfold resumes.marshal, resumes.unmarshal.
  destruct r as [ty [env|] [c|] t]; simpl in *.
  - destruct (MarshalEnvironment env) as [|rawE] eqn:HmE; [done|].
    destruct (MarshalContact c) as [|rawC] eqn:HmC; [done|].
    intros [= <-]. simpl.
    by rewrite (Henv env rawE eq_refl HmE), (Hcontact c rawC eq_refl HmC).
  - destruct (MarshalEnvironment env) as [|rawE] eqn:HmE; [done|].
    intros [= <-]. simpl. by rewrite (Henv env rawE eq_refl HmE).
  - destruct (MarshalContact c) as [|rawC] eqn:HmC; [done|].
    intros [= <-]. simpl. by rewrite (Hcontact c rawC eq_refl HmC).
  - by intros [= <-].
Qed.

End ResumesProperties.

(** The msg reader registered, and a type nobody registered. *)
Lemma ReadResume_dispatch_witness :
  resumes.ReadResume exReadType (resumes.RegisterType "msg" exReadMsg ∅) () "msg"
  = inr "resume:msg"
  ∧ resumes.ReadResume exReadType (∅ : gmap string (@resumes.readFunc unit string)) () "msg"
    = inl (errors_New "unknown type: msg").
Proof.
  destruct (ReadResume_dispatch exReadType (∅ : gmap string (@resumes.readFunc unit string))
              () "msg" "msg" eq_refl) as (Hreg & _ & _ & Hunknown).
  split; [exact (Hreg exReadMsg) | exact (Hunknown eq_refl)].
Defined.


(** The example resume through JSON that is the text itself. *)
Lemma marshal_unmarshal_round_trip_witness :
  ∃ e, resumes.marshal (fun env => inr env) (fun c => inr c) exResume
         (resumes.mkEnvelope "" None None 0%Z) = (e, None)
    ∧ resumes.unmarshal (Session := unit) (fun raw => inr raw) (fun _ raw => inr raw)
        (resumes.mkBaseResume "" None None 0%Z) () e = (exResume, None).
Proof.
  eexists. split; [reflexivity|].
  apply (marshal_unmarshal_round_trip (Session := unit)
           (fun env => inr env) (fun c => inr c) (fun raw => inr raw) (fun _ raw => inr raw)
           exResume () "" "" 0%Z 0%Z _).
  - by intros env raw _ [= ->].
  - by intros c raw _ [= ->].
  - reflexivity.
Defined.

(** * Properties of the creation handler *)

Section HandleCreate.

Context {Body Assets ModelContact FlowContact URN Database : Type}.
Variable UnmarshalAndValidateWithLimit : Body → error + @contact.createRequest URN.
Variable GetOrgAssets : Database → Z → error + Assets.
Variable CreateContact :
  Database → Assets → Z → string → string → list URN →
  Database * (error + ModelContact * FlowContact).

Lemma createContacts_results (db : Database) (org : Assets) (userID : Z)
    (contacts : list (@contact.contactSpec URN)) :
  length (contact.createContacts CreateContact db org userID contacts).2 = length contacts
  ∧ Forall (fun r => (is_Some (contact.Contact r) ∧ contact.Error r = "")
                     ∨ (contact.Contact r = None
                        ∧ ∃ err, contact.Error r = error_Error err))
           (contact.createContacts CreateContact db org userID contacts).2.
Proof.
  revert db. induction contacts as [|c contacts IH]; intros db; simpl; [done|].
  destruct (CreateContact db org userID _ _ _) as [db1 created].
  specialize (IH db1).
  destruct (contact.createContacts CreateContact db1 org userID contacts) as [db2 results].
  simpl in *. destruct IH as [IHlen IHall]. split; [by rewrite IHlen|].
  constructor; [|done].
  destruct created as [err|[mc fc]]; simpl; [right | left]; eauto.
Qed.


End HandleCreate.

